(** * The Aryn SDK client, embedded from [aryn_sdk/client]

    The development follows the Python sources:
    - [config.py]: [ArynConfig.api_key] and [ArynConfig.aryn_url];
    - [client.py]: [Client.__init__], the request core ([_make_raw_request],
      [_make_request], [_make_paginated_request]), the two list operations,
      and the async-task operations;
    - [response.py] is not part of the sources at hand, so the envelopes and
      the pagination traversal are modelled from the specification.

    Python values are dynamically typed.  Where the code lets any parsed YAML
    or JSON value flow through (the value stored under [aryn_token], the body
    returned by [res.json()]), the model keeps the whole value and writes out
    what Python does on each shape. *)

From Stdlib Require Import ZArith String Ascii List Lia.
From Stdlib.Strings Require Import Byte.
From stdpp Require Import base option gmap strings list pretty.

Local Open Scope string_scope.

(** ** Parsed documents *)

Local Unset Elimination Schemes.

(** What [yaml.safe_load] can hand back for a configuration file.  Mapping
    keys are kept when they are strings, the only keys that a lookup of
    ["aryn_token"] or ["aryn_url"] can hit. *)
Inductive yaml : Type :=
  | YNull
  | YBool (b : bool)
  | YInt (z : Z)
  | YStr (s : string)
  | YSeq (l : list yaml)
  | YMap (m : gmap string yaml).

(** What [json.loads] can hand back for a response body; a number with a
    fraction or an exponent keeps its lexeme. *)
Inductive json : Type :=
  | JNull
  | JBool (b : bool)
  | JInt (z : Z)
  | JFloat (lexeme : string)
  | JStr (s : string)
  | JArr (l : list json)
  | JObj (m : gmap string json).

Local Set Elimination Schemes.

(** ** The transport's requests and responses *)

Module httpx.

(** A value of the [params] dictionary given to [build_request]. *)
Inductive param : Type :=
  | PNone
  | PStr (s : string)
  | PInt (z : Z).

(** The arguments of [client.build_request] that the modelled operations
    use: the method, the path, and the [params] and [headers] keywords
    (each [None] or a dictionary). *)
Record Request : Type := build_request {
  method : string;
  url : string;
  params : option (gmap string param);
  headers : option (gmap string string)
}.

(** A completed response: status, the header list, the body bytes. *)
Record Response : Type := mkResponse {
  status_code : Z;
  resp_headers : list (string * string);
  content : list byte
}.

Definition lower_ascii (c : ascii) : ascii :=
  let n := nat_of_ascii c in
  if Nat.leb 65 n && Nat.leb n 90 then ascii_of_nat (n + 32) else c.

(** [str.lower] on the ASCII range. *)
Fixpoint lower (s : string) : string :=
  match s with
  | EmptyString => EmptyString
  | String c s' => String (lower_ascii c) (lower s')
  end.

Fixpoint join (sep : string) (items : list string) : string :=
  match items with
  | [] => ""
  | [x] => x
  | x :: rest => x ++ sep ++ join sep rest
  end.

(** [res.headers.get(key)]: header names compare without regard to case,
    several values of one name are joined with a comma and a space, and a
    name that is absent gives [None]. *)
Definition Headers_get (key : string) (h : list (string * string)) : option string :=
  match List.filter (fun kv => String.eqb (lower (fst kv)) (lower key)) h with
  | [] => None
  | items => Some (join ", " (List.map snd items))
  end.

(** How httpx writes a parameter value into the query string (its
    [primitive_value_to_str]): [None] becomes the empty string, it is not
    left out. *)
Definition primitive_value_to_str (v : param) : string :=
  match v with
  | PNone => ""
  | PStr s => s
  | PInt z => pretty z
  end.

(** The items of the query string of a request: one for every key of
    [params], in no particular order. *)
Definition query (req : Request) : gmap string string :=
  primitive_value_to_str <$> default ∅ (params req).

End httpx.

(** ** Exceptions and outcomes *)

(** The exceptions that the modelled code raises or lets through.
    [ArynSDKException] is declared in [exceptions.py], which is not among
    the sources; [client.py] builds it from the raw response. *)
Inductive exn : Type :=
  | ArynSDKException (res : httpx.Response)
  | AttributeError (msg : string)
  | JSONDecodeError
  | TypeError (msg : string)
  | KeyError (key : string)
  | ValidationError
  | ValueError (msg : string)
  | TransportError (msg : string)
  | FileError (msg : string).

Inductive outcome (A : Type) : Type :=
  | Ok (a : A)
  | Raise (e : exn).
Arguments Ok {A} a.
Arguments Raise {A} e.

(** ** Credential and base-URL resolution ([config.py]) *)

(** What the resolver reads from its surroundings: the process environment,
    the files it may open (absent from the map when the path does not exist;
    otherwise the parsed content, or the error that [open] or
    [yaml.safe_load] raises), and the home directory. *)
Record OsEnv : Type := mkOsEnv {
  environ : gmap string string;
  files : gmap string (outcome yaml);
  home : string
}.

(** Truth value of a string: the empty string is false. *)
Definition truthy (s : string) : bool :=
  match s with EmptyString => false | _ => true end.

(** [needle in s] for two strings. *)
Definition str_contains (needle s : string) : bool :=
  match index 0 needle s with Some _ => true | None => false end.

(** [key in data] for a parsed YAML value. *)
Definition yaml_contains (key : string) (data : yaml) : outcome bool :=
  match data with
  | YMap m => Ok (bool_decide (is_Some (m !! key)))
  | YStr s => Ok (str_contains key s)
  | YSeq l => Ok (existsb (fun y => match y with YStr s => String.eqb s key | _ => false end) l)
  | YNull => Raise (TypeError "argument of type 'NoneType' is not iterable")
  | YBool _ => Raise (TypeError "argument of type 'bool' is not iterable")
  | YInt _ => Raise (TypeError "argument of type 'int' is not iterable")
  end.

(** [data[key]] for a parsed YAML value and a string key. *)
Definition yaml_getitem (data : yaml) (key : string) : outcome yaml :=
  match data with
  | YMap m => match m !! key with Some v => Ok v | None => Raise (KeyError key) end
  | YStr _ => Raise (TypeError "string indices must be integers")
  | YSeq _ => Raise (TypeError "list indices must be integers or slices, not str")
  | YNull => Raise (TypeError "'NoneType' object is not subscriptable")
  | YBool _ => Raise (TypeError "'bool' object is not subscriptable")
  | YInt _ => Raise (TypeError "'int' object is not subscriptable")
  end.

Module ArynConfig.

Definition _DEFAULT_PATH (os : OsEnv) : string := home os ++ "/.aryn/config.yaml".
Definition _ARYN_API_KEY_ENV_VAR : string := "ARYN_API_KEY".
Definition _ARYN_URL_ENV_VAR : string := "ARYN_API_URL".
Definition _DEFAULT_ARYN_URL : string := "https://api.aryn.ai".

Record t : Type := __init__ {
  _aryn_config_path : string;
  _aryn_api_key : option string;
  _aryn_url : option string
}.

Definition getenv (os : OsEnv) (name : string) : option string := environ os !! name.

(** [os.getenv(name)] under an [if val := ...] test: an unset variable and
    an empty value both fail the test. *)
Definition getenv_if (os : OsEnv) (name : string) : option string :=
  match getenv os name with
  | Some val => if truthy val then Some val else None
  | None => None
  end.

Definition api_key_error (self : t) : string :=
  "Could not find an aryn api key. Checked the " ++ _ARYN_API_KEY_ENV_VAR ++ " env "
  ++ "var, the " ++ _aryn_config_path self ++ " config file, and the aryn_api_key parameter".

Definition aryn_url_error (self : t) : string :=
  "Could not find an aryn url. Checked the " ++ _ARYN_URL_ENV_VAR ++ " env "
  ++ "var, the " ++ _aryn_config_path self ++ " config file, and the aryn_url parameter".

(** The third stage of [api_key]: the configuration file. *)
Definition api_key_from_file (self : t) (os : OsEnv) : outcome yaml :=
  match files os !! _aryn_config_path self with
  | Some (Raise e) => Raise e
  | Some (Ok data) =>
      match yaml_contains "aryn_token" data with
      | Raise e => Raise e
      | Ok true => yaml_getitem data "aryn_token"
      | Ok false => Raise (ValueError (api_key_error self))
      end
  | None => Raise (ValueError (api_key_error self))
  end.

Definition api_key (self : t) (os : OsEnv) : outcome yaml :=
  match _aryn_api_key self with
  | Some k => Ok (YStr k)
  | None =>
      match getenv_if os _ARYN_API_KEY_ENV_VAR with
      | Some val => Ok (YStr val)
      | None => api_key_from_file self os
      end
  end.

(** The value of [url] when the final [if url is None] test is reached
    ([YNull] stands for Python's [None]), or the exception raised on the
    way. *)
Definition aryn_url_lookup (self : t) (os : OsEnv) : outcome yaml :=
  match _aryn_url self with
  | Some u => Ok (YStr u)
  | None =>
      match getenv_if os _ARYN_URL_ENV_VAR with
      | Some val => Ok (YStr val)
      | None =>
          match files os !! _aryn_config_path self with
          | Some (Raise e) => Raise e
          | Some (Ok data) =>
              match yaml_contains "aryn_url" data with
              | Raise e => Raise e
              | Ok true => yaml_getitem data "aryn_url"
              | Ok false => Ok YNull
              end
          | None => Ok (YStr _DEFAULT_ARYN_URL)
          end
      end
  end.

Definition aryn_url (self : t) (os : OsEnv) : outcome yaml :=
  match aryn_url_lookup self os with
  | Raise e => Raise e
  | Ok YNull => Raise (ValueError (aryn_url_error self))
  | Ok url => Ok url
  end.

End ArynConfig.

(** ** Computations of the client

    The client talks to one server.  A server answers a request knowing
    everything that was sent to it before, so a run of the client is
    described by the list of requests sent so far; [self.client.send] may
    also fail in the transport, and that failure is raised as it is. *)

Definition Server : Type := list httpx.Request -> httpx.Request -> outcome httpx.Response.

(** Modelled from the spec: [tasks.py], which declares [AsyncTask], is not
    among the sources.  The handle holds the task identifier and the method
    and path of the submission; [_get_task_and_filters] tests each of the
    two against [None].  The declared result type plays no part in the
    operations modelled here and is left out. *)
Record AsyncTask : Type := mkAsyncTask {
  task_id : string;
  task_method : option string;
  task_path : option string
}.

(** The argument of the poll and cancel operations:
    [Union[AsyncTask, str]]. *)
Inductive TaskArg : Type :=
  | Handle (task : AsyncTask)
  | BareId (id : string).

(** One record of [logging.error]. *)
Inductive LogRecord : Type :=
  | UnexpectedStatus (status : Z) (task : TaskArg).

Record World : Type := mkWorld {
  sent : list httpx.Request;
  logged : list LogRecord
}.

Definition M (A : Type) : Type := World -> outcome A * World.

Definition ret {A} (a : A) : M A := fun w => (Ok a, w).
Definition raise {A} (e : exn) : M A := fun w => (Raise e, w).
Definition bind {A B} (c : M A) (k : A -> M B) : M B :=
  fun w => match c w with
           | (Ok a, w') => k a w'
           | (Raise e, w') => (Raise e, w')
           end.
Definition lift {A} (o : outcome A) : M A := fun w => (o, w).

Definition obind {A B} (o : outcome A) (k : A -> outcome B) : outcome B :=
  match o with Ok a => k a | Raise e => Raise e end.

Notation "x <- c ;; k" := (bind c (fun x => k))
  (at level 100, c at next level, right associativity).
Notation "x <~ c ;; k" := (obind c (fun x => k))
  (at level 100, c at next level, right associativity).

Fixpoint omap_list {A B} (f : A -> outcome B) (l : list A) : outcome (list B) :=
  match l with
  | [] => Ok []
  | x :: rest => y <~ f x ;; ys <~ omap_list f rest ;; Ok (y :: ys)
  end.

Definition log_error (r : LogRecord) : M unit :=
  fun w => (Ok tt, {| sent := sent w; logged := logged w ++ [r] |}).

(** ** Result envelopes *)

(** Modelled from the spec: [response.py], which declares [Response], is not
    among the sources.  The Result Envelope pairs the raw transport response
    with the decoded value, as in [Response(raw_response=res, value=...)]. *)
Record Response (V : Type) : Type := mkResponse {
  raw_response : httpx.Response;
  value : V
}.
Arguments mkResponse {V} raw_response value.
Arguments raw_response {V} r.
Arguments value {V} r.

(** Modelled from the spec: [response.py], which declares [SimpleResponse],
    is not among the sources.  The acknowledgement envelope holds the raw
    response alone, as in [SimpleResponse(res)]. *)
Record SimpleResponse : Type := mkSimpleResponse {
  simple_raw_response : httpx.Response
}.

(** The keyword arguments of a re-playable request: [params] and
    [headers]. *)
Record Kwargs : Type := mkKwargs {
  kw_params : option (gmap string httpx.param);
  kw_headers : option (gmap string string)
}.

(** Modelled from the spec: [response.py], which declares
    [PaginatedResponse], is not among the sources.  The fields are those
    that [_make_paginated_request] hands to the constructor (the client
    apart); the held page starts as [first_response]. *)
Record PaginatedResponse (T : Type) : Type := mkPaginatedResponse {
  curr_response : httpx.Response;
  response_type : gmap string json -> outcome T;
  list_key : string;
  request_args : list string;
  request_kwargs : Kwargs
}.
Arguments mkPaginatedResponse {T}.
Arguments curr_response {T} p.
Arguments response_type {T} p.
Arguments list_key {T} p.
Arguments request_args {T} p.
Arguments request_kwargs {T} p.

(** [build_request] applied to unpacked positional and keyword arguments:
    the positional arguments are the method and the path. *)
Definition build_request_star (args : list string) (kwargs : Kwargs) : outcome httpx.Request :=
  match args with
  | [m; u] => Ok (httpx.build_request m u (kw_params kwargs) (kw_headers kwargs))
  | _ => Raise (TypeError "build_request() takes a method and a url")
  end.

(** What the poll hands back, [Union[SimpleResponse, Response]]: the value of
    a [Response] is the decoded JSON body or the raw bytes. *)
Inductive PollContent : Type :=
  | JsonContent (v : json)
  | RawContent (b : list byte).

Inductive PollResult : Type :=
  | PollSimple (r : SimpleResponse)
  | PollResponse (r : Response PollContent).

(** The three task outcomes, as the specification names them. *)
Definition Pending (res : httpx.Response) : PollResult :=
  PollSimple (mkSimpleResponse res).
Definition Ready (res : httpx.Response) (v : json) : PollResult :=
  PollResponse (mkResponse res (JsonContent v)).
Definition ReadyRaw (res : httpx.Response) : PollResult :=
  PollResponse (mkResponse res (RawContent (httpx.content res))).

Definition json_type_name (v : json) : string :=
  match v with
  | JNull => "NoneType"
  | JBool _ => "bool"
  | JInt _ => "int"
  | JFloat _ => "float"
  | JStr _ => "str"
  | JArr _ => "list"
  | JObj _ => "dict"
  end.

(** A call that unpacks [v] into keyword arguments: only a mapping can be
    unpacked. *)
Definition py_kwargs (v : json) : outcome (gmap string json) :=
  match v with
  | JObj m => Ok m
  | _ => Raise (TypeError ("argument after ** must be a mapping, not " ++ json_type_name v))
  end.

(** ** The client ([client.py]) *)

Module Client.

(** A value of the client's default headers: what [extra_headers] gave, or
    the [Authorization] entry, an f-string of whatever [api_key] returned. *)
Inductive header : Type :=
  | Plain (v : string)
  | Bearer (key : yaml).

(** The attributes set by the constructor; [client_base_url] and
    [client_headers] are the arguments of [httpx.Client]. *)
Record t : Type := mkClient {
  aryn_url : option string;
  config : ArynConfig.t;
  client_base_url : yaml;
  client_headers : gmap string header
}.

Definition DEFAULT_URL : option string := Some "https://api.aryn.ai".

(** [extra_headers or {}]. *)
Definition or_empty (extra_headers : option (gmap string string)) : gmap string string :=
  match extra_headers with
  | Some h => h
  | None => ∅
  end.

(** The constructor.  The right operand of the dictionary union wins. *)
Definition __init__ (os : OsEnv) (aryn_url : option string) (aryn_api_key : option string)
    (extra_headers : option (gmap string string)) : M t :=
  let config := ArynConfig.__init__ (ArynConfig._DEFAULT_PATH os) aryn_api_key aryn_url in
  key <- lift (ArynConfig.api_key config os) ;;
  let headers := {[ "Authorization" := Bearer key ]} ∪ (Plain <$> or_empty extra_headers) in
  base_url <- lift (ArynConfig.aryn_url config os) ;;
  ret {| aryn_url := aryn_url; config := config;
         client_base_url := base_url; client_headers := headers |}.

(** [None] stays [None] in a [params] dictionary. *)
Definition opt_param (o : option string) : httpx.param :=
  match o with
  | Some s => httpx.PStr s
  | None => httpx.PNone
  end.

Definition _get_task_and_filters (task : TaskArg) : string * option string * option string :=
  match task with
  | Handle task =>
      let method_filter := match task_method task with Some method => Some method | None => None end in
      let path_filter := match task_path task with Some path => Some path | None => None end in
      (task_id task, method_filter, path_filter)
  | BareId task => (task, None, None)
  end.

(** The request of the cancel operation. *)
Definition cancel_request (task : TaskArg) : httpx.Request :=
  let '(task_id, method_filter, path_filter) := _get_task_and_filters task in
  httpx.build_request "POST" ("/v1/async/cancel/" ++ task_id)
    (Some (<["path_filter" := opt_param path_filter]>
             (<["method_filter" := opt_param method_filter]> ∅)))
    None.

(** The request of the poll operation. *)
Definition result_request (task : TaskArg) : httpx.Request :=
  let '(task_id, method_filter, path_filter) := _get_task_and_filters task in
  httpx.build_request "GET" ("/v1/async/result/" ++ task_id)
    (Some (<["path_filter" := opt_param path_filter]>
             (<["method_filter" := opt_param method_filter]> ∅)))
    None.

(** [params or None]: an empty dictionary is false. *)
Definition or_None (params : gmap string httpx.param) : option (gmap string httpx.param) :=
  if decide (params = ∅) then None else Some params.

(** [if v is not None: params[k] = f(v)]. *)
Definition set_if {A} (k : string) (f : A -> httpx.param) (v : option A)
    (params : gmap string httpx.param) : gmap string httpx.param :=
  match v with
  | Some x => <[k := f x]> params
  | None => params
  end.

Section Operations.

(** The server behind [self.client.send], [json.loads] behind
    [res.json()], and the models built from decoded bodies. *)
Context (server : Server).
Context (json_loads : list byte -> option json).
Context {DocSetMetadataT DocumentMetadataT AsyncTaskMapT : Type}.
Context (DocSetMetadata : gmap string json -> outcome DocSetMetadataT).
Context (DocumentMetadata : gmap string json -> outcome DocumentMetadataT).
Context (AsyncTaskMap : gmap string json -> outcome AsyncTaskMapT).

(** [self.client.send(req)]. *)
Definition send (req : httpx.Request) : M httpx.Response :=
  fun w => (server (sent w) req, {| sent := sent w ++ [req]; logged := logged w |}).

(** [res.json()]. *)
Definition res_json (res : httpx.Response) : outcome json :=
  match json_loads (httpx.content res) with
  | Some v => Ok v
  | None => Raise JSONDecodeError
  end.

Definition _make_raw_request (req : httpx.Request) : M httpx.Response :=
  res <- send req ;;
  if (httpx.status_code res >=? 300)%Z then raise (ArynSDKException res)
  else ret res.

Definition _make_request {ResponseType} (req : httpx.Request)
    (response_type : gmap string json -> outcome ResponseType) : M (Response ResponseType) :=
  res <- _make_raw_request req ;;
  v <- lift (body <~ res_json res ;; kwargs <~ py_kwargs body ;; response_type kwargs) ;;
  ret (mkResponse res v).

Definition _make_paginated_request {ResponseType} (req : httpx.Request)
    (responseType : gmap string json -> outcome ResponseType) (list_key : string)
    (request_args : list string) (request_kwargs : Kwargs)
    : M (PaginatedResponse ResponseType) :=
  res <- _make_raw_request req ;;
  ret (mkPaginatedResponse res responseType list_key request_args request_kwargs).

Definition list_docsets (name_eq : option string) (page_size : option Z)
    (page_token : option string) (extra_headers : option (gmap string string))
    : M (PaginatedResponse DocSetMetadataT) :=
  let params := set_if "name_eq" httpx.PStr name_eq ∅ in
  let params := set_if "page_size" httpx.PInt page_size params in
  let params := set_if "page_token" httpx.PStr page_token params in
  let args := ["GET"; "/v1/storage/docsets"] in
  let kwargs := {| kw_params := or_None params; kw_headers := extra_headers |} in
  req <- lift (build_request_star args kwargs) ;;
  _make_paginated_request req DocSetMetadata "items" args kwargs.

Definition list_docs (docset_id : string) (page_size : option Z)
    (page_token : option string) (extra_headers : option (gmap string string))
    : M (PaginatedResponse DocumentMetadataT) :=
  let page_param := set_if "page_size" httpx.PInt page_size ∅ in
  let page_param := set_if "page_token" httpx.PStr page_token page_param in
  let args := ["GET"; "/v1/storage/docsets/" ++ docset_id ++ "/docs"] in
  let kwargs := {| kw_params := or_None page_param; kw_headers := extra_headers |} in
  req <- lift (build_request_star args kwargs) ;;
  _make_paginated_request req DocumentMetadata "items" args kwargs.

Definition list_async_tasks : M (Response AsyncTaskMapT) :=
  let req := httpx.build_request "GET" "/v1/async/list" None None in
  _make_request req AsyncTaskMap.

Definition cancel_async_task (task : TaskArg) : M SimpleResponse :=
  let req := cancel_request task in
  res <- _make_raw_request req ;;
  ret (mkSimpleResponse res).

Definition _get_async_result_internal (task : TaskArg) : M httpx.Response :=
  let req := result_request task in
  _make_raw_request req.

Definition get_async_result (task : TaskArg) : M PollResult :=
  res <- _get_async_result_internal task ;;
  if (httpx.status_code res =? 200)%Z then
    match httpx.Headers_get "Content-Type" (httpx.resp_headers res) with
    | None => raise (AttributeError "'NoneType' object has no attribute 'lower'")
    | Some content_type =>
        if String.eqb (httpx.lower content_type) "application/json" then
          content <- lift (res_json res) ;;
          ret (PollResponse (mkResponse res (JsonContent content)))
        else
          ret (PollResponse (mkResponse res (RawContent (httpx.content res))))
    end
  else if (httpx.status_code res =? 202)%Z then
    ret (PollSimple (mkSimpleResponse res))
  else
    _ <- log_error (UnexpectedStatus (httpx.status_code res) task) ;;
    raise (ArynSDKException res).

(** [int(readonly)] inside an f-string. *)
Definition int_str (readonly : bool) : string := if readonly then "1" else "0".

Definition clone_docset (docset_id : string) (extra_headers : option (gmap string string))
    : M (Response DocSetMetadataT) :=
  _make_request
    (httpx.build_request "POST" ("/v1/storage/docsets/" ++ docset_id ++ "/clone") None
       extra_headers)
    DocSetMetadata.

Definition get_docset (docset_id : string) (extra_headers : option (gmap string string))
    : M (Response DocSetMetadataT) :=
  _make_request
    (httpx.build_request "GET" ("/v1/storage/docsets/" ++ docset_id) None extra_headers)
    DocSetMetadata.

Definition set_readonly_docset (docset_id : string) (readonly : bool)
    (extra_headers : option (gmap string string)) : M (Response DocSetMetadataT) :=
  _make_request
    (httpx.build_request "POST"
       ("/v1/storage/docsets/" ++ docset_id ++ "/readonly/" ++ int_str readonly) None
       extra_headers)
    DocSetMetadata.

Definition delete_docset (docset_id : string) (extra_headers : option (gmap string string))
    : M (Response DocSetMetadataT) :=
  _make_request
    (httpx.build_request "DELETE" ("/v1/storage/docsets/" ++ docset_id) None extra_headers)
    DocSetMetadata.

Definition delete_doc (docset_id doc_id : string)
    (extra_headers : option (gmap string string)) : M (Response DocumentMetadataT) :=
  _make_request
    (httpx.build_request "DELETE"
       ("/v1/storage/docsets/" ++ docset_id ++ "/docs/" ++ doc_id) None extra_headers)
    DocumentMetadata.

(** The [file] argument of [get_doc_binary]: a path, which is opened for
    writing in binary mode, or a binary file object that is already open. *)
Inductive FileArg : Type :=
  | FilePath (path : string)
  | FileObject (fd : nat).

(** What [get_doc_binary] writes to: the content of the files by path, and
    for each open file object the bytes written to it so far. *)
Record Disk : Type := mkDisk {
  disk_paths : gmap string (list byte);
  disk_objects : gmap nat (list byte)
}.

(** What [open(file, "wb")] raises for a path, if anything, and the chunks
    that [res.iter_bytes()] yields. *)
Context (os_open : string -> outcome unit).
Context (iter_bytes : httpx.Response -> list (list byte)).

(** [open(path, "wb")]: the file is created or truncated. *)
Definition open_wb (path : string) (disk : Disk) : outcome Disk :=
  _ <~ os_open path ;;
  Ok {| disk_paths := <[path := []]> (disk_paths disk); disk_objects := disk_objects disk |}.

(** [file_obj.write(data)]: the bytes go after what was written before. *)
Definition write (file : FileArg) (disk : Disk) (data : list byte) : Disk :=
  match file with
  | FilePath path =>
      {| disk_paths := <[path := (default [] (disk_paths disk !! path) ++ data)%list]>
                         (disk_paths disk);
         disk_objects := disk_objects disk |}
  | FileObject fd =>
      {| disk_paths := disk_paths disk;
         disk_objects := <[fd := (default [] (disk_objects disk !! fd) ++ data)%list]>
                           (disk_objects disk) |}
  end.

(** The disk is passed in and the disk after the writes is returned. *)
Definition get_doc_binary (docset_id doc_id : string) (file : FileArg)
    (extra_headers : option (gmap string string)) (disk : Disk) : M Disk :=
  let req := httpx.build_request "GET"
               ("/v1/storage/docsets/" ++ docset_id ++ "/docs/" ++ doc_id ++ "/binary")
               None extra_headers in
  res <- _make_raw_request req ;;
  disk <- lift (match file with
                | FilePath path => open_wb path disk
                | FileObject _ => Ok disk
                end) ;;
  ret (fold_left (write file) (iter_bytes res) disk).

End Operations.

End Client.

(** ** The pagination traversal *)

Module Pagination.

(** Modelled from the spec: [response.py], which holds the traversal, is
    not among the sources.  The continuation token of a decoded body, the
    optional [next_page_token] field of the wire contract: absent or null
    means that the page is the last one. *)
Definition next_page_token (body : gmap string json) : outcome (option string) :=
  match body !! "next_page_token" with
  | None => Ok None
  | Some JNull => Ok None
  | Some (JStr token) => Ok (Some token)
  | Some v => Raise (TypeError ("next_page_token must be a str, not " ++ json_type_name v))
  end.

(** Modelled from the spec: [response.py] is not among the sources.  The
    items array of a decoded body, found under the list key. *)
Definition raw_items (list_key : string) (body : gmap string json) : outcome (list json) :=
  match body !! list_key with
  | None => Raise (KeyError list_key)
  | Some (JArr items) => Ok items
  | Some v => Raise (TypeError ("the items must be a list, not " ++ json_type_name v))
  end.

(** Modelled from the spec: [response.py] is not among the sources.  The
    stored keyword arguments with the [page_token] parameter set to the
    token and every other parameter unchanged. *)
Definition with_page_token (kwargs : Kwargs) (token : string) : Kwargs :=
  {| kw_params := Some (<["page_token" := httpx.PStr token]> (default ∅ (kw_params kwargs)));
     kw_headers := kw_headers kwargs |}.

Section Traversal.

Context (server : Server).
Context (json_loads : list byte -> option json).
Context {T : Type}.

(** Modelled from the spec: [response.py] is not among the sources.  A
    decoded page: the items, each decoded as the value shape, in the order
    of the body, and the token. *)
Definition decode_page (p : PaginatedResponse T) (res : httpx.Response)
    : outcome (list T * option string) :=
  body <~ Client.res_json json_loads res ;;
  body <~ py_kwargs body ;;
  raw <~ raw_items (list_key p) body ;;
  items <~ omap_list (fun x => kwargs <~ py_kwargs x ;; response_type p kwargs) raw ;;
  token <~ next_page_token body ;;
  Ok (items, token).

(** Modelled from the spec: [response.py] is not among the sources.  The
    engine after the held page is replaced. *)
Definition hold (p : PaginatedResponse T) (res : httpx.Response) : PaginatedResponse T :=
  mkPaginatedResponse res (response_type p) (list_key p) (request_args p) (request_kwargs p).

(** Modelled from the spec: [response.py] is not among the sources.  The
    continuation fetch: the stored request is re-issued with the token and
    goes through the error classifier of the client. *)
Definition fetch_next (p : PaginatedResponse T) (token : string) : M httpx.Response :=
  req <- lift (build_request_star (request_args p) (with_page_token (request_kwargs p) token)) ;;
  Client._make_raw_request server req.

(** Modelled from the spec: [response.py] is not among the sources.
    Draining the sequence into a list: the items of the held page in order,
    then, if the page carried a token, the continuation fetch and the items
    of the pages that follow; a page without a token ends the sequence.  The
    number of pages is up to the server, so the loop runs on fuel: [None]
    reports that the fuel ran out before a page without a token was
    reached. *)
Fixpoint materialize (fuel : nat) (p : PaginatedResponse T) : M (option (list T)) :=
  match fuel with
  | O => ret None
  | S fuel' =>
      page <- lift (decode_page p (curr_response p)) ;;
      match snd page with
      | None => ret (Some (fst page))
      | Some token =>
          res <- fetch_next p token ;;
          rest <- materialize fuel' (hold p res) ;;
          ret (app (fst page) <$> rest)
      end
  end.

(** The first request with the page token set, as the wire contract has
    it: the same method, path and headers, and the same query parameters but
    for [page_token]. *)
Definition next_page_request (first : httpx.Request) (token : string) : httpx.Request :=
  httpx.build_request (httpx.method first) (httpx.url first)
    (Some (<["page_token" := httpx.PStr token]> (default ∅ (httpx.params first))))
    (httpx.headers first).

(** A response presents a page under the wire contract: its body is a JSON
    object, with an array under the list key whose elements are objects that
    the value shape decodes to [page], one by one and in order, and with
    [next_page_token] absent or null when there is no [token] and equal to
    the token otherwise. *)
Definition presents (shape : gmap string json -> outcome T) (key : string)
    (res : httpx.Response) (page : list T) (token : option string) : Prop :=
  exists body raws,
    json_loads (httpx.content res) = Some (JObj body) /\
    body !! key = Some (JArr raws) /\
    Forall2 (fun raw item => exists fields, raw = JObj fields /\ shape fields = Ok item)
      raws page /\
    match token with
    | Some t => body !! "next_page_token" = Some (JStr t)
    | None => body !! "next_page_token" = None \/ body !! "next_page_token" = Some JNull
    end.

(** A listing of one or more pages as the server holds it behind the request
    [first].  [req], sent after [history], is answered below 300 with the
    first of [pages]; every page but the last presents the next of [tokens],
    and [first] with that token set is answered with the pages that follow;
    the last page presents no token. *)
Fixpoint listing (shape : gmap string json -> outcome T) (key : string)
    (first : httpx.Request) (history : list httpx.Request) (req : httpx.Request)
    (pages : list (list T)) (tokens : list string) : Prop :=
  match pages with
  | [] => False
  | page :: later =>
      exists res,
        server history req = Ok res /\ (httpx.status_code res < 300)%Z /\
        match later, tokens with
        | [], [] => presents shape key res page None
        | _ :: _, token :: tokens' =>
            presents shape key res page (Some token) /\
            listing shape key first (history ++ [req]) (next_page_request first token)
              later tokens'
        | _, _ => False
        end
  end.

End Traversal.

End Pagination.

(** ** Vocabulary of the statements *)

(** The environment variable [name] fails an [if val := os.getenv(name)]
    test: it is unset, or set to the empty string. *)
Definition unset_or_empty (os : OsEnv) (name : string) : Prop :=
  environ os !! name = None \/ environ os !! name = Some "".

(** The configuration file at [path] has no entry [key] to offer: it does not
    exist, or it parses to a value in which the membership test finds no
    [key]. *)
Definition no_entry (os : OsEnv) (path key : string) : Prop :=
  files os !! path = None \/
  exists data, files os !! path = Some (Ok data) /\ yaml_contains key data = Ok false.

(** The world after one more request. *)
Definition after (w : World) (req : httpx.Request) : World :=
  {| sent := sent w ++ [req]; logged := logged w |}.

(** The content type that the poll takes for JSON: the value of the header,
    lower-cased, is [application/json] and nothing more. *)
Definition json_content_type (res : httpx.Response) : Prop :=
  exists ct, httpx.Headers_get "Content-Type" (httpx.resp_headers res) = Some ct /\
             httpx.lower ct = "application/json".

(** The part of a content type before its parameters, lower-cased. *)
Fixpoint media_type (ct : string) : string :=
  match ct with
  | EmptyString => EmptyString
  | String c rest =>
      if Ascii.eqb c ";" then EmptyString
      else String (httpx.lower_ascii c) (media_type rest)
  end.

(** A response announces JSON, in the ordinary sense of a JSON content type:
    its media type is [application/json], with or without parameters. *)
Definition announces_json (res : httpx.Response) : Prop :=
  exists ct, httpx.Headers_get "Content-Type" (httpx.resp_headers res) = Some ct /\
             media_type ct = "application/json".

(** The identifier that addresses a task, read off the argument: that of
    the handle, or the bare string. *)
Definition expected_task_id (task : TaskArg) : string :=
  match task with
  | Handle t => task_id t
  | BareId id => id
  end.

(** The two query parameters of a poll or cancel request, read off the
    argument: for a handle its method and path, each [None] when the handle
    holds [None]; for a bare identifier [None] twice. *)
Definition expected_filters (task : TaskArg) : gmap string httpx.param :=
  match task with
  | Handle t =>
      {[ "method_filter" := match task_method t with
                            | Some method => httpx.PStr method
                            | None => httpx.PNone
                            end;
         "path_filter" := match task_path t with
                          | Some path => httpx.PStr path
                          | None => httpx.PNone
                          end ]}
  | BareId _ => {[ "method_filter" := httpx.PNone; "path_filter" := httpx.PNone ]}
  end.

(** A request sends no filter: neither filter appears in its query. *)
Definition sends_no_filters (req : httpx.Request) : Prop :=
  httpx.query req !! "method_filter" = None /\ httpx.query req !! "path_filter" = None.

(** An operation is classified when an API error answer to the one request
    it sends comes out of it as the exception carrying that answer. *)
Definition classified {A} (server : Server) (c : M A) : Prop :=
  forall w req res,
    sent (snd (c w)) = sent (after w req) ->
    server (sent w) req = Ok res ->
    (httpx.status_code res >= 300)%Z ->
    fst (c w) = Raise (ArynSDKException res).

(** A continuation is quiet when it sends nothing. *)
Definition quiet {A B} (k : A -> M B) : Prop :=
  forall a w, sent (snd (k a w)) = sent w.

(** An operation sends [req] once, and nothing else, whatever comes back. *)
Definition sends_once {A} (c : M A) (req : httpx.Request) : Prop :=
  forall w, sent (snd (c w)) = sent (after w req).

(** A failure of the transport on [req] comes out of the operation as it
    is. *)
Definition passes_transport_failure {A} (server : Server) (c : M A) (req : httpx.Request)
    : Prop :=
  forall w e, server (sent w) req = Raise e -> c w = (Raise e, after w req).

(** A parsed configuration file that is a mapping. *)
Definition is_mapping (data : yaml) : bool :=
  match data with YMap _ => true | _ => false end.

(** ** Sample surroundings, used to exercise the statements *)

Module Samples.

Definition path : string := "/home/u/.aryn/config.yaml".

Definition os_with (env : gmap string string) (fs : gmap string (outcome yaml)) : OsEnv :=
  {| environ := env; files := fs; home := "/home/u" |}.

(** Nothing set, no configuration file. *)
Definition bare : OsEnv := os_with ∅ ∅.

(** An empty configuration file: [yaml.safe_load] gives [None]. *)
Definition empty_file : OsEnv := os_with ∅ {[ path := Ok YNull ]}.

(** A configuration file holding a token and nothing else. *)
Definition token_file : OsEnv :=
  os_with ∅ {[ path := Ok (YMap {[ "aryn_token" := YStr "file-key" ]}) ]}.

(** The same file, with the key variable set to the empty string. *)
Definition token_file_empty_var : OsEnv :=
  os_with {[ "ARYN_API_KEY" := "" ]}
          {[ path := Ok (YMap {[ "aryn_token" := YStr "file-key" ]}) ]}.

(** A configuration file holding a URL and nothing else. *)
Definition url_file : OsEnv :=
  os_with ∅ {[ path := Ok (YMap {[ "aryn_url" := YStr "https://aryn.example" ]}) ]}.

Definition env_only : OsEnv :=
  os_with {[ "ARYN_API_KEY" := "env-key"; "ARYN_API_URL" := "https://env.example" ]} ∅.

Definition config (key url : option string) : ArynConfig.t :=
  ArynConfig.__init__ path key url.

Definition w0 : World := {| sent := []; logged := [] |}.

Definition bytes (s : string) : list byte := list_byte_of_string s.

(** A decoder that knows the bodies of the samples and nothing else. *)
Definition decode (b : list byte) : option json :=
  let s := string_of_list_byte b in
  if String.eqb s "result" then Some (JObj {[ "x" := JInt 1 ]})
  else if String.eqb s "page1" then
    Some (JObj {[ "items" := JArr [JObj {[ "id" := JStr "a" ]}; JObj {[ "id" := JStr "b" ]}];
                  "next_page_token" := JStr "t1" ]})
  else if String.eqb s "page2" then
    Some (JObj {[ "items" := JArr [JObj {[ "id" := JStr "c" ]}];
                  "next_page_token" := JNull ]})
  else if String.eqb s "array" then Some (JArr [])
  else None.

(** A shape with one required string field. *)
Definition item (fields : gmap string json) : outcome string :=
  match fields !! "id" with
  | Some (JStr id) => Ok id
  | _ => Raise ValidationError
  end.

Definition json_headers : list (string * string) := [("content-type", "Application/JSON")].
Definition text_headers : list (string * string) := [("Content-Type", "text/plain")].

Definition pending : httpx.Response := httpx.mkResponse 202 [] [].
Definition ready : httpx.Response := httpx.mkResponse 200 json_headers (bytes "result").
Definition ready_raw : httpx.Response := httpx.mkResponse 200 text_headers (bytes "result").
Definition no_content : httpx.Response := httpx.mkResponse 204 [] [].
Definition bare_ok : httpx.Response := httpx.mkResponse 200 [] (bytes "result").
Definition not_found : httpx.Response := httpx.mkResponse 404 json_headers (bytes "array").
Definition garbled : httpx.Response := httpx.mkResponse 200 json_headers (bytes "<html>").
Definition array : httpx.Response := httpx.mkResponse 200 json_headers (bytes "array").
Definition charset : httpx.Response :=
  httpx.mkResponse 200 [("Content-Type", "application/json; charset=utf-8")] (bytes "result").
Definition page1 : httpx.Response := httpx.mkResponse 200 json_headers (bytes "page1").
Definition page2 : httpx.Response := httpx.mkResponse 200 json_headers (bytes "page2").

(** A server that gives one answer to everything. *)
Definition always (res : httpx.Response) : Server := fun _ _ => Ok res.

(** A server with a listing of two pages: the second page is behind the
    token of the first. *)
Definition paged : Server :=
  fun _ req =>
    match httpx.params req with
    | Some params =>
        match params !! "page_token" with
        | Some (httpx.PStr "t1") => Ok page2
        | _ => Ok page1
        end
    | None => Ok page1
    end.

Definition task : AsyncTask :=
  {| task_id := "T1"; task_method := Some "POST"; task_path := Some "/jobs/extract-properties" |}.

(** The same task, addressed by a handle without filters. *)
Definition unfiltered : AsyncTask :=
  {| task_id := "T1"; task_method := None; task_path := None |}.

(** A server whose transport fails. *)
Definition unreachable : Server := fun _ _ => Raise (TransportError "connection refused").

(** A configuration file that is plain text naming the token. *)
Definition text_file : OsEnv := os_with ∅ {[ path := Ok (YStr "aryn_token=abc") ]}.

(** A configuration file that cannot be read. *)
Definition broken_file : OsEnv := os_with ∅ {[ path := Raise (FileError "permission denied") ]}.

(** A configuration file whose URL entry is null. *)
Definition null_url_file : OsEnv := os_with ∅ {[ path := Ok (YMap {[ "aryn_url" := YNull ]}) ]}.

(** Every path can be opened; the body comes in chunks of at most two
    bytes. *)
Definition can_open : string -> outcome unit := fun _ => Ok tt.

Fixpoint pairs (b : list byte) : list (list byte) :=
  match b with
  | x :: y :: rest => [x; y] :: pairs rest
  | [] => []
  | [x] => [[x]]
  end.

Definition chunks (res : httpx.Response) : list (list byte) := pairs (httpx.content res).

Definition disk0 : Client.Disk :=
  {| Client.disk_paths := {[ "out.bin" := bytes "old content" ]};
     Client.disk_objects := {[ 3 := bytes "head:" ]} |}.

End Samples.

(** * Credential and base-URL resolution *)

Section ConfigFacts.

Import ArynConfig.

Lemma getenv_if_unset os name : unset_or_empty os name -> getenv_if os name = None.
Proof.
  unfold getenv_if, getenv. intros [-> | ->]; reflexivity.
Qed.

Lemma getenv_if_set os name v :
  environ os !! name = Some v -> v <> "" -> getenv_if os name = Some v.
Proof.
  unfold getenv_if, getenv. intros -> Hv.
  destruct v; [congruence | reflexivity].
Qed.

Lemma api_key_from_file_no_entry self os :
  no_entry os (_aryn_config_path self) "aryn_token" ->
  api_key_from_file self os = Raise (ValueError (api_key_error self)).
Proof.
  unfold api_key_from_file. intros [-> | (data & -> & ->)]; reflexivity.
Qed.

Lemma api_key_error_text self :
  api_key_error self =
  "Could not find an aryn api key. Checked the ARYN_API_KEY env var, the "
  ++ _aryn_config_path self ++ " config file, and the aryn_api_key parameter".
Proof.
  unfold api_key_error, _ARYN_API_KEY_ENV_VAR. simpl. reflexivity.
Qed.

End ConfigFacts.

(** C5.  The claim: when none of the three sources yields a key, the
    construction of the client fails with the configuration error that names
    the three sources.  The code at an empty configuration file: with no
    parameter and no environment variable, and a configuration file that
    exists but is empty, no source yields a key, yet the constructor raises
    the [TypeError] of the membership test on [None] and not that
    [ValueError].  No request has been sent. *)
Lemma api_key_empty_config_file :
  Client.__init__ Samples.empty_file Client.DEFAULT_URL None None Samples.w0
    = (Raise (TypeError "argument of type 'NoneType' is not iterable"), Samples.w0) /\
  ~ exists msg,
      fst (Client.__init__ Samples.empty_file Client.DEFAULT_URL None None Samples.w0)
        = Raise (ValueError msg).
Proof.
  split.
  - vm_compute. reflexivity.
  - intros [msg H]. vm_compute in H. discriminate H.
Qed.

(** The resolution of the key where it works as meant.  [api_key] returns
    the first value found, looking at the [aryn_api_key] parameter (any
    value but [None]), then at the [ARYN_API_KEY] environment variable (when
    set and not empty), then at the [aryn_token] entry of the configuration
    file.  When the parameter is [None], the variable is unset or empty, and
    the configuration file is absent or parses to a value in which the
    membership test finds no [aryn_token], [api_key] raises a [ValueError]
    whose message names the environment variable, the configuration file and
    the parameter; the constructor of the client raises it and no request
    has been sent. *)
Theorem api_key_resolution :
  forall (os : OsEnv) (self : ArynConfig.t),
    (forall k, ArynConfig._aryn_api_key self = Some k ->
       ArynConfig.api_key self os = Ok (YStr k)) /\
    (forall v, ArynConfig._aryn_api_key self = None ->
       environ os !! "ARYN_API_KEY" = Some v -> v <> "" ->
       ArynConfig.api_key self os = Ok (YStr v)) /\
    (forall m x, ArynConfig._aryn_api_key self = None ->
       unset_or_empty os "ARYN_API_KEY" ->
       files os !! ArynConfig._aryn_config_path self = Some (Ok (YMap m)) ->
       m !! "aryn_token" = Some x ->
       ArynConfig.api_key self os = Ok x) /\
    (ArynConfig._aryn_api_key self = None ->
       unset_or_empty os "ARYN_API_KEY" ->
       no_entry os (ArynConfig._aryn_config_path self) "aryn_token" ->
       ArynConfig.api_key self os =
         Raise (ValueError
           ("Could not find an aryn api key. Checked the ARYN_API_KEY env var, the "
            ++ ArynConfig._aryn_config_path self
            ++ " config file, and the aryn_api_key parameter"))) /\
    (forall aryn_url extra_headers w,
       unset_or_empty os "ARYN_API_KEY" ->
       no_entry os (ArynConfig._DEFAULT_PATH os) "aryn_token" ->
       Client.__init__ os aryn_url None extra_headers w =
         (Raise (ValueError
            ("Could not find an aryn api key. Checked the ARYN_API_KEY env var, the "
             ++ ArynConfig._DEFAULT_PATH os
             ++ " config file, and the aryn_api_key parameter")), w)).
Proof.
  intros os self. repeat split.
  - intros k Hk. unfold ArynConfig.api_key, ArynConfig._ARYN_API_KEY_ENV_VAR. rewrite Hk. reflexivity.
  - intros v Hk Hv Hne. unfold ArynConfig.api_key, ArynConfig._ARYN_API_KEY_ENV_VAR. rewrite Hk.
    rewrite (getenv_if_set os _ v Hv Hne). reflexivity.
  - intros m x Hk Hu Hf Hm. unfold ArynConfig.api_key, ArynConfig._ARYN_API_KEY_ENV_VAR. rewrite Hk.
    rewrite (getenv_if_unset os _ Hu).
    unfold ArynConfig.api_key_from_file. rewrite Hf. simpl.
    rewrite bool_decide_eq_true_2 by (rewrite Hm; eauto).
    rewrite Hm. reflexivity.
  - intros Hk Hu Hf. unfold ArynConfig.api_key, ArynConfig._ARYN_API_KEY_ENV_VAR. rewrite Hk.
    rewrite (getenv_if_unset os _ Hu).
    rewrite (api_key_from_file_no_entry self os Hf).
    rewrite api_key_error_text. reflexivity.
  - intros aryn_url extra_headers w Hu Hf.
    unfold Client.__init__, bind, lift, ArynConfig.api_key, ArynConfig._ARYN_API_KEY_ENV_VAR.
    cbn [ArynConfig._aryn_api_key].
    rewrite (getenv_if_unset os _ Hu).
    rewrite api_key_from_file_no_entry by exact Hf.
    rewrite api_key_error_text. reflexivity.
Qed.

(** The resolution of the key at work: a parameter, a variable, a file
    entry, and the failure with nothing configured. *)
Lemma api_key_resolution_witness :
  ArynConfig.api_key (Samples.config (Some "param-key") None) Samples.env_only
    = Ok (YStr "param-key") /\
  ArynConfig.api_key (Samples.config None None) Samples.env_only = Ok (YStr "env-key") /\
  ArynConfig.api_key (Samples.config None None) Samples.token_file = Ok (YStr "file-key") /\
  ArynConfig.api_key (Samples.config None None) Samples.bare =
    Raise (ValueError
      "Could not find an aryn api key. Checked the ARYN_API_KEY env var, the /home/u/.aryn/config.yaml config file, and the aryn_api_key parameter") /\
  fst (Client.__init__ Samples.bare Client.DEFAULT_URL None None Samples.w0) =
    Raise (ValueError
      "Could not find an aryn api key. Checked the ARYN_API_KEY env var, the /home/u/.aryn/config.yaml config file, and the aryn_api_key parameter") /\
  sent (snd (Client.__init__ Samples.bare Client.DEFAULT_URL None None Samples.w0)) = [].
Proof.
  destruct (api_key_resolution Samples.env_only (Samples.config (Some "param-key") None))
    as (H1 & _).
  destruct (api_key_resolution Samples.env_only (Samples.config None None))
    as (_ & H2 & _).
  destruct (api_key_resolution Samples.token_file (Samples.config None None))
    as (_ & _ & H3 & _).
  destruct (api_key_resolution Samples.bare (Samples.config None None))
    as (_ & _ & _ & H4 & H5).
  assert (Hu : unset_or_empty Samples.bare "ARYN_API_KEY") by (left; reflexivity).
  assert (Hn : no_entry Samples.bare Samples.path "aryn_token") by (left; reflexivity).
  split; [apply H1; reflexivity |].
  split; [apply (H2 "env-key"); [reflexivity | reflexivity | discriminate] |].
  split; [apply (H3 {[ "aryn_token" := YStr "file-key" ]});
          [reflexivity | left; reflexivity | reflexivity | reflexivity] |].
  split; [exact (H4 eq_refl Hu Hn) |].
  split; [rewrite (H5 Client.DEFAULT_URL None Samples.w0 Hu Hn); reflexivity |].
  rewrite (H5 Client.DEFAULT_URL None Samples.w0 Hu Hn); reflexivity.
Defined.

(** C6, as the specification states it, fails when a configuration file
    exists without an [aryn_url] entry: no parameter, no environment variable
    and a file that holds only a token supply no URL, yet [aryn_url] raises
    the [ValueError] of its final test instead of returning the default. *)
Lemma aryn_url_no_default_with_config_file :
  ArynConfig.aryn_url (Samples.config None None) Samples.token_file =
    Raise (ValueError
      "Could not find an aryn url. Checked the ARYN_API_URL env var, the /home/u/.aryn/config.yaml config file, and the aryn_url parameter") /\
  ArynConfig.aryn_url (Samples.config None None) Samples.token_file
    <> Ok (YStr "https://api.aryn.ai").
Proof.
  split.
  - vm_compute. reflexivity.
  - vm_compute. discriminate.
Qed.

(** C6, amended.  [aryn_url] looks at the [aryn_url] parameter (any value
    but [None]), then at the [ARYN_API_URL] environment variable (when set and
    not empty), then at the [aryn_url] entry of the configuration file.  It
    returns the default [https://api.aryn.ai] only when the parameter is
    [None], the variable is unset or empty and the configuration file does
    not exist.  When the file exists no default applies: a mapping with an
    [aryn_url] entry that is not null supplies the URL; a mapping without the
    entry, or with a null one, raises the [ValueError] that names the three
    sources; content that is not a mapping raises a [TypeError] or that
    [ValueError]; and an error of opening or parsing the file is raised as
    it is. *)
Theorem aryn_url_resolution :
  forall (os : OsEnv) (self : ArynConfig.t),
    (forall u, ArynConfig._aryn_url self = Some u ->
       ArynConfig.aryn_url self os = Ok (YStr u)) /\
    (forall v, ArynConfig._aryn_url self = None ->
       environ os !! "ARYN_API_URL" = Some v -> v <> "" ->
       ArynConfig.aryn_url self os = Ok (YStr v)) /\
    (forall m u, ArynConfig._aryn_url self = None ->
       unset_or_empty os "ARYN_API_URL" ->
       files os !! ArynConfig._aryn_config_path self = Some (Ok (YMap m)) ->
       m !! "aryn_url" = Some u -> u <> YNull ->
       ArynConfig.aryn_url self os = Ok u) /\
    (ArynConfig._aryn_url self = None ->
       unset_or_empty os "ARYN_API_URL" ->
       files os !! ArynConfig._aryn_config_path self = None ->
       ArynConfig.aryn_url self os = Ok (YStr "https://api.aryn.ai")) /\
    (forall m, ArynConfig._aryn_url self = None ->
       unset_or_empty os "ARYN_API_URL" ->
       files os !! ArynConfig._aryn_config_path self = Some (Ok (YMap m)) ->
       m !! "aryn_url" = None \/ m !! "aryn_url" = Some YNull ->
       ArynConfig.aryn_url self os =
         Raise (ValueError
           ("Could not find an aryn url. Checked the ARYN_API_URL env var, the "
            ++ ArynConfig._aryn_config_path self
            ++ " config file, and the aryn_url parameter"))) /\
    (forall data, ArynConfig._aryn_url self = None ->
       unset_or_empty os "ARYN_API_URL" ->
       files os !! ArynConfig._aryn_config_path self = Some (Ok data) ->
       is_mapping data = false ->
       ArynConfig.aryn_url self os =
         Raise (ValueError
           ("Could not find an aryn url. Checked the ARYN_API_URL env var, the "
            ++ ArynConfig._aryn_config_path self
            ++ " config file, and the aryn_url parameter")) \/
       exists msg, ArynConfig.aryn_url self os = Raise (TypeError msg)) /\
    (forall e, ArynConfig._aryn_url self = None ->
       unset_or_empty os "ARYN_API_URL" ->
       files os !! ArynConfig._aryn_config_path self = Some (Raise e) ->
       ArynConfig.aryn_url self os = Raise e).
Proof.
  intros os self.
  unfold ArynConfig.aryn_url, ArynConfig.aryn_url_lookup, ArynConfig._ARYN_URL_ENV_VAR.
  repeat match goal with |- _ /\ _ => split end.
  - intros u ->. reflexivity.
  - intros v -> Hv Hne. rewrite (getenv_if_set os _ v Hv Hne). reflexivity.
  - intros m u -> Hu Hf Hm Hnull. rewrite (getenv_if_unset os _ Hu), Hf. simpl.
    rewrite bool_decide_eq_true_2 by (rewrite Hm; eauto).
    rewrite Hm. destruct u; try reflexivity. congruence.
  - intros -> Hu Hf. rewrite (getenv_if_unset os _ Hu), Hf. reflexivity.
  - intros m -> Hu Hf [Hm | Hm]; rewrite (getenv_if_unset os _ Hu), Hf; simpl.
    + rewrite bool_decide_eq_false_2 by (rewrite Hm; intros [x Hx]; discriminate Hx).
      reflexivity.
    + rewrite bool_decide_eq_true_2 by (rewrite Hm; eauto).
      rewrite Hm. reflexivity.
  - intros data -> Hu Hf Hm. rewrite (getenv_if_unset os _ Hu), Hf.
    destruct data as [| b | z | s | l | m]; try discriminate Hm; cbn; eauto.
    + destruct (str_contains "aryn_url" s); cbn; eauto.
    + destruct (existsb _ l); cbn; eauto.
  - intros e -> Hu Hf. rewrite (getenv_if_unset os _ Hu), Hf. reflexivity.
Qed.

(** The amended C6 at work: a parameter, a variable, a file entry, the
    default with no file, the failure with a file that holds no URL, and an
    empty file. *)
Lemma aryn_url_resolution_witness :
  ArynConfig.aryn_url (Samples.config None (Some "https://param.example")) Samples.env_only
    = Ok (YStr "https://param.example") /\
  ArynConfig.aryn_url (Samples.config None None) Samples.env_only
    = Ok (YStr "https://env.example") /\
  ArynConfig.aryn_url (Samples.config None None) Samples.url_file
    = Ok (YStr "https://aryn.example") /\
  ArynConfig.aryn_url (Samples.config None None) Samples.bare
    = Ok (YStr "https://api.aryn.ai") /\
  ArynConfig.aryn_url (Samples.config None None) Samples.token_file =
    Raise (ValueError
      "Could not find an aryn url. Checked the ARYN_API_URL env var, the /home/u/.aryn/config.yaml config file, and the aryn_url parameter") /\
  ArynConfig.aryn_url (Samples.config None None) Samples.empty_file
    = Raise (TypeError "argument of type 'NoneType' is not iterable").
Proof.
  destruct (aryn_url_resolution Samples.env_only
              (Samples.config None (Some "https://param.example"))) as (H1 & _).
  destruct (aryn_url_resolution Samples.env_only (Samples.config None None))
    as (_ & H2 & _).
  destruct (aryn_url_resolution Samples.url_file (Samples.config None None))
    as (_ & _ & H3 & _).
  destruct (aryn_url_resolution Samples.bare (Samples.config None None))
    as (_ & _ & _ & H4 & _).
  destruct (aryn_url_resolution Samples.token_file (Samples.config None None))
    as (_ & _ & _ & _ & H5 & _).
  destruct (aryn_url_resolution Samples.empty_file (Samples.config None None))
    as (_ & _ & _ & _ & _ & H6 & _).
  split; [apply H1; reflexivity |].
  split; [apply (H2 "https://env.example"); [reflexivity | reflexivity | discriminate] |].
  split; [apply (H3 {[ "aryn_url" := YStr "https://aryn.example" ]});
          [reflexivity | left; reflexivity | reflexivity | reflexivity | discriminate] |].
  split; [apply H4; [reflexivity | left; reflexivity | reflexivity] |].
  split; [apply (H5 {[ "aryn_token" := YStr "file-key" ]});
          [reflexivity | left; reflexivity | reflexivity | left; reflexivity] |].
  destruct (H6 YNull) as [Hv | (msg & Ht)];
    [reflexivity | left; reflexivity | reflexivity | reflexivity | ..].
  - vm_compute in Hv. discriminate Hv.
  - reflexivity.
Defined.

(** C10.  The empty string is treated differently by two sources of the key.
    As the [aryn_api_key] parameter it is returned as it is: only [None] lets
    the resolution move on.  As the value of [ARYN_API_KEY], with the
    parameter [None], it fails the truth test, and the resolution moves on to
    the configuration file: the result is that of the file stage, the same as
    with the variable unset. *)
Theorem api_key_empty_string_asymmetry :
  forall (os : OsEnv) (path : string) (url : option string),
    ArynConfig.api_key (ArynConfig.__init__ path (Some "") url) os = Ok (YStr "") /\
    (environ os !! "ARYN_API_KEY" = Some "" ->
       ArynConfig.api_key (ArynConfig.__init__ path None url) os
         = ArynConfig.api_key_from_file (ArynConfig.__init__ path None url) os /\
       ArynConfig.api_key (ArynConfig.__init__ path None url) os
         = ArynConfig.api_key (ArynConfig.__init__ path None url)
             {| environ := delete "ARYN_API_KEY" (environ os);
                files := files os; home := home os |} /\
       forall m x,
         files os !! path = Some (Ok (YMap m)) -> m !! "aryn_token" = Some x ->
         ArynConfig.api_key (ArynConfig.__init__ path None url) os = Ok x).
Proof.
  intros os path url. split; [reflexivity |].
  intros He.
  assert (Hfile : ArynConfig.api_key (ArynConfig.__init__ path None url) os
                  = ArynConfig.api_key_from_file (ArynConfig.__init__ path None url) os).
  { unfold ArynConfig.api_key, ArynConfig.getenv_if, ArynConfig.getenv,
      ArynConfig._ARYN_API_KEY_ENV_VAR. cbn [ArynConfig._aryn_api_key].
    rewrite He. reflexivity. }
  split; [exact Hfile |]. split.
  - rewrite Hfile.
    unfold ArynConfig.api_key, ArynConfig.getenv_if, ArynConfig.getenv,
      ArynConfig._ARYN_API_KEY_ENV_VAR. cbn [ArynConfig._aryn_api_key environ].
    rewrite lookup_delete_eq. reflexivity.
  - intros m x Hf Hm. rewrite Hfile.
    unfold ArynConfig.api_key_from_file. cbn [ArynConfig._aryn_config_path].
    rewrite Hf. simpl.
    rewrite bool_decide_eq_true_2 by (rewrite Hm; eauto).
    rewrite Hm. reflexivity.
Qed.

(** C10 at work: the empty parameter wins over a configured file, the empty
    variable does not. *)
Lemma api_key_empty_string_asymmetry_witness :
  ArynConfig.api_key (Samples.config (Some "") None) Samples.token_file = Ok (YStr "") /\
  ArynConfig.api_key (Samples.config None None) Samples.token_file_empty_var
    = Ok (YStr "file-key").
Proof.
  destruct (api_key_empty_string_asymmetry Samples.token_file Samples.path None)
    as (H1 & _).
  destruct (api_key_empty_string_asymmetry Samples.token_file_empty_var Samples.path None)
    as (_ & H2).
  split; [exact H1 |].
  destruct (H2 eq_refl) as (_ & _ & H3).
  apply (H3 {[ "aryn_token" := YStr "file-key" ]}); reflexivity.
Defined.

(** * The request core *)

Section CoreFacts.

Context (server : Server).

Lemma raw_request_api_error req w res :
  server (sent w) req = Ok res -> (httpx.status_code res >= 300)%Z ->
  Client._make_raw_request server req w = (Raise (ArynSDKException res), after w req).
Proof.
  intros Hs Hc. unfold Client._make_raw_request, Client.send, bind. rewrite Hs.
  destruct (Z.geb_spec (httpx.status_code res) 300) as [_ | Hlt]; [reflexivity | lia].
Qed.

Lemma raw_request_ok req w res :
  server (sent w) req = Ok res -> (httpx.status_code res < 300)%Z ->
  Client._make_raw_request server req w = (Ok res, after w req).
Proof.
  intros Hs Hc. unfold Client._make_raw_request, Client.send, bind. rewrite Hs.
  destruct (Z.geb_spec (httpx.status_code res) 300) as [Hge | _]; [lia | reflexivity].
Qed.

Lemma raw_request_transport_error req w e :
  server (sent w) req = Raise e ->
  Client._make_raw_request server req w = (Raise e, after w req).
Proof.
  intros Hs. unfold Client._make_raw_request, Client.send, bind. rewrite Hs. reflexivity.
Qed.

(** One request is sent, whatever the answer. *)
Lemma raw_request_sent req w :
  sent (snd (Client._make_raw_request server req w)) = sent (after w req).
Proof.
  destruct (server (sent w) req) as [res | e] eqn:Hs.
  - destruct (Z_lt_ge_dec (httpx.status_code res) 300) as [Hlt | Hge].
    + rewrite (raw_request_ok req w res Hs Hlt). reflexivity.
    + rewrite (raw_request_api_error req w res Hs Hge). reflexivity.
  - rewrite (raw_request_transport_error req w e Hs). reflexivity.
Qed.

Lemma classified_raw_then {A} req (k : httpx.Response -> M A) :
  quiet k -> classified server (res <- Client._make_raw_request server req ;; k res).
Proof.
  intros Hk w req' res Hsent Hs Hc. unfold bind in *.
  destruct (server (sent w) req) as [res0 | e] eqn:Hs0.
  - destruct (Z_lt_ge_dec (httpx.status_code res0) 300) as [Hlt | Hge].
    + rewrite (raw_request_ok req w res0 Hs0 Hlt) in *.
      rewrite Hk in Hsent. cbn in Hsent.
      apply app_inv_head in Hsent. injection Hsent as <-.
      rewrite Hs0 in Hs. injection Hs as <-. lia.
    + rewrite (raw_request_api_error req w res0 Hs0 Hge) in *. cbn in *.
      apply app_inv_head in Hsent. injection Hsent as <-.
      rewrite Hs0 in Hs. injection Hs as <-. reflexivity.
  - rewrite (raw_request_transport_error req w e Hs0) in *. cbn in *.
    apply app_inv_head in Hsent. injection Hsent as <-.
    rewrite Hs0 in Hs. discriminate Hs.
Qed.

Lemma classified_raw req : classified server (Client._make_raw_request server req).
Proof.
  intros w req' res Hsent Hs Hc.
  rewrite raw_request_sent in Hsent. apply app_inv_head in Hsent. injection Hsent as <-.
  rewrite (raw_request_api_error req w res Hs Hc). reflexivity.
Qed.

Lemma classified_lift_then {A B} (o : outcome A) (k : A -> M B) :
  (forall a, classified server (k a)) -> classified server (a <- lift o ;; k a).
Proof.
  intros Hk w req res. unfold bind, lift. destruct o as [a | e].
  - apply Hk.
  - cbn. intros Hsent. symmetry in Hsent. rewrite <- (app_nil_r (sent w)) in Hsent at 2.
    apply app_inv_head in Hsent. discriminate Hsent.
Qed.

End CoreFacts.

Section ClassifiedOperations.

Context (server : Server).
Context (json_loads : list byte -> option json).

Lemma classified_make_request {R} req (rt : gmap string json -> outcome R) :
  classified server (Client._make_request server json_loads req rt).
Proof.
  unfold Client._make_request. apply classified_raw_then.
  intros res w. unfold bind, lift.
  destruct (body <~ Client.res_json json_loads res ;; kwargs <~ py_kwargs body ;; rt kwargs);
    reflexivity.
Qed.

Lemma classified_make_paginated_request {R} req (rt : gmap string json -> outcome R)
    lk args kw :
  classified server (Client._make_paginated_request server req rt lk args kw).
Proof.
  unfold Client._make_paginated_request. apply classified_raw_then.
  intros res w. reflexivity.
Qed.

Lemma quiet_poll_classification task :
  quiet (fun res : httpx.Response =>
    if (httpx.status_code res =? 200)%Z then
      match httpx.Headers_get "Content-Type" (httpx.resp_headers res) with
      | None => raise (AttributeError "'NoneType' object has no attribute 'lower'")
      | Some content_type =>
          if String.eqb (httpx.lower content_type) "application/json" then
            content <- lift (Client.res_json json_loads res) ;;
            ret (PollResponse (mkResponse res (JsonContent content)))
          else
            ret (PollResponse (mkResponse res (RawContent (httpx.content res))))
      end
    else if (httpx.status_code res =? 202)%Z then
      ret (PollSimple (mkSimpleResponse res))
    else
      _ <- log_error (UnexpectedStatus (httpx.status_code res) task) ;;
      raise (ArynSDKException res)).
Proof.
  intros res w.
  destruct (httpx.status_code res =? 200)%Z.
  - destruct (httpx.Headers_get _ _) as [ct |]; [| reflexivity].
    destruct (String.eqb _ _); [| reflexivity].
    unfold bind, lift. destruct (Client.res_json json_loads res); reflexivity.
  - destruct (httpx.status_code res =? 202)%Z; reflexivity.
Qed.

Lemma classified_get_async_result task :
  classified server (Client.get_async_result server json_loads task).
Proof.
  unfold Client.get_async_result, Client._get_async_result_internal.
  apply classified_raw_then. apply quiet_poll_classification.
Qed.

Lemma classified_cancel_async_task task :
  classified server (Client.cancel_async_task server task).
Proof.
  unfold Client.cancel_async_task. apply classified_raw_then.
  intros res w. reflexivity.
Qed.

Lemma classified_fetch_next {T} (p : PaginatedResponse T) token :
  classified server (Pagination.fetch_next server p token).
Proof.
  unfold Pagination.fetch_next. apply classified_lift_then.
  intros req. apply classified_raw.
Qed.

End ClassifiedOperations.

(** C2.  The core sends a request and looks at the status of the answer: at
    300 or above it raises the API error that carries the raw response,
    below 300 it returns the response as it is.  Every operation of the
    client goes through that test: envelope construction, the construction of
    a paginated response, the list operations, the task list, cancel, the
    poll, and the continuation fetch of a traversal, which aborts the
    traversal with that error. *)
Theorem api_error_classification :
  forall (server : Server) (json_loads : list byte -> option json),
    (forall req w res,
       server (sent w) req = Ok res ->
       ((httpx.status_code res >= 300)%Z ->
          Client._make_raw_request server req w
            = (Raise (ArynSDKException res), after w req)) /\
       ((httpx.status_code res < 300)%Z ->
          Client._make_raw_request server req w = (Ok res, after w req))) /\
    (forall R req (rt : gmap string json -> outcome R),
       classified server (Client._make_request server json_loads req rt)) /\
    (forall R req (rt : gmap string json -> outcome R) lk args kw,
       classified server (Client._make_paginated_request server req rt lk args kw)) /\
    (forall R (rt : gmap string json -> outcome R) name_eq page_size page_token extra,
       classified server (Client.list_docsets server rt name_eq page_size page_token extra)) /\
    (forall R (rt : gmap string json -> outcome R) docset_id page_size page_token extra,
       classified server (Client.list_docs server rt docset_id page_size page_token extra)) /\
    (forall R (rt : gmap string json -> outcome R),
       classified server (Client.list_async_tasks server json_loads rt)) /\
    (forall task, classified server (Client.cancel_async_task server task)) /\
    (forall task, classified server (Client._get_async_result_internal server task)) /\
    (forall task, classified server (Client.get_async_result server json_loads task)) /\
    (forall T (p : PaginatedResponse T) token,
       classified server (Pagination.fetch_next server p token)) /\
    (forall T (p : PaginatedResponse T) fuel w items token req res,
       Pagination.decode_page json_loads p (curr_response p) = Ok (items, Some token) ->
       build_request_star (request_args p)
         (Pagination.with_page_token (request_kwargs p) token) = Ok req ->
       server (sent w) req = Ok res ->
       (httpx.status_code res >= 300)%Z ->
       Pagination.materialize server json_loads (S fuel) p w
         = (Raise (ArynSDKException res), after w req)).
Proof.
  intros server json_loads.
  split; [intros req w res Hs; split; intros Hc;
          [apply raw_request_api_error | apply raw_request_ok]; assumption |].
  split; [intros; apply classified_make_request |].
  split; [intros; apply classified_make_paginated_request |].
  split; [intros; unfold Client.list_docsets; apply classified_lift_then;
          intros; apply classified_make_paginated_request |].
  split; [intros; unfold Client.list_docs; apply classified_lift_then;
          intros; apply classified_make_paginated_request |].
  split; [intros; apply classified_make_request |].
  split; [intros; apply classified_cancel_async_task |].
  split; [intros; apply classified_raw |].
  split; [intros; apply classified_get_async_result |].
  split; [intros; apply classified_fetch_next |].
  intros T p fuel w items token req res Hd Hb Hs Hc.
  cbn [Pagination.materialize]. unfold bind at 1. unfold lift at 1. rewrite Hd.
  cbn [snd fst]. unfold bind at 1. unfold Pagination.fetch_next.
  unfold bind at 1. unfold lift at 1. rewrite Hb.
  rewrite (raw_request_api_error server req w res Hs Hc). reflexivity.
Qed.

(** * Polling a task *)

Section PollFacts.

Context (server : Server).
Context (json_loads : list byte -> option json).

(** The poll after an answer that the classifier lets through. *)
Lemma poll_passed task w res :
  server (sent w) (Client.result_request task) = Ok res ->
  (httpx.status_code res < 300)%Z ->
  Client.get_async_result server json_loads task w =
    if (httpx.status_code res =? 200)%Z then
      match httpx.Headers_get "Content-Type" (httpx.resp_headers res) with
      | None => (Raise (AttributeError "'NoneType' object has no attribute 'lower'"),
                 after w (Client.result_request task))
      | Some ct =>
          if String.eqb (httpx.lower ct) "application/json" then
            match json_loads (httpx.content res) with
            | Some v => (Ok (Ready res v), after w (Client.result_request task))
            | None => (Raise JSONDecodeError, after w (Client.result_request task))
            end
          else (Ok (ReadyRaw res), after w (Client.result_request task))
      end
    else if (httpx.status_code res =? 202)%Z then
      (Ok (Pending res), after w (Client.result_request task))
    else
      (Raise (ArynSDKException res),
       {| sent := sent (after w (Client.result_request task));
          logged := logged w ++ [UnexpectedStatus (httpx.status_code res) task] |}).
Proof.
  intros Hs Hc.
  unfold Client.get_async_result, Client._get_async_result_internal.
  unfold bind at 1. rewrite (raw_request_ok server _ w res Hs Hc).
  destruct (httpx.status_code res =? 200)%Z.
  - destruct (httpx.Headers_get _ _) as [ct |]; [| reflexivity].
    destruct (String.eqb _ _); [| reflexivity].
    unfold bind, lift, Client.res_json.
    destruct (json_loads (httpx.content res)); reflexivity.
  - destruct (httpx.status_code res =? 202)%Z; reflexivity.
Qed.

(** The poll after an API error answer. *)
Lemma poll_api_error task w res :
  server (sent w) (Client.result_request task) = Ok res ->
  (httpx.status_code res >= 300)%Z ->
  Client.get_async_result server json_loads task w =
    (Raise (ArynSDKException res), after w (Client.result_request task)).
Proof.
  intros Hs Hc.
  unfold Client.get_async_result, Client._get_async_result_internal.
  unfold bind at 1. rewrite (raw_request_api_error server _ w res Hs Hc). reflexivity.
Qed.

End PollFacts.

(** C1, as the specification states it, fails on a JSON content type that
    carries a parameter.  A 200 whose Content-Type is
    [application/json; charset=utf-8] announces JSON, and its body decodes,
    yet the poll compares the whole lower-cased value with [application/json]
    and returns ReadyRaw with the raw bytes, not Ready. *)
Lemma poll_json_with_charset :
  announces_json Samples.charset /\
  Samples.decode (httpx.content Samples.charset) = Some (JObj {[ "x" := JInt 1 ]}) /\
  Client.get_async_result (Samples.always Samples.charset) Samples.decode
      (BareId "T1") Samples.w0
    = (Ok (ReadyRaw Samples.charset), after Samples.w0 (Client.result_request (BareId "T1"))) /\
  forall v,
    fst (Client.get_async_result (Samples.always Samples.charset) Samples.decode
           (BareId "T1") Samples.w0) <> Ok (Ready Samples.charset v).
Proof.
  split; [exists "application/json; charset=utf-8"; split; reflexivity |].
  split; [reflexivity |].
  split; [reflexivity |].
  intros v. cbn. discriminate.
Qed.

(** C1, amended.  The outcome of a poll is determined by the response that
    the server gives to the poll request.  A 202 gives Pending, the
    acknowledgement envelope with no decoded body.  A 200 whose Content-Type
    value, lower-cased, is exactly [application/json] gives Ready, the raw
    response paired with the decoded body.  A 200 with any other
    Content-Type value, a JSON media type with parameters included, gives
    ReadyRaw, the raw response paired with the raw bytes.  Any other status,
    whether the classifier raised on it or not, raises the API error, and is
    never Pending.  Conversely each of the three outcomes arises only from
    its own kind of response. *)
Theorem poll_outcome :
  forall (server : Server) (json_loads : list byte -> option json)
         (task : TaskArg) (w : World) (res : httpx.Response),
    server (sent w) (Client.result_request task) = Ok res ->
    ((httpx.status_code res = 202)%Z ->
       Client.get_async_result server json_loads task w
         = (Ok (Pending res), after w (Client.result_request task))) /\
    ((httpx.status_code res = 200)%Z ->
       forall ct v,
         httpx.Headers_get "Content-Type" (httpx.resp_headers res) = Some ct ->
         httpx.lower ct = "application/json" ->
         json_loads (httpx.content res) = Some v ->
         Client.get_async_result server json_loads task w
           = (Ok (Ready res v), after w (Client.result_request task))) /\
    ((httpx.status_code res = 200)%Z ->
       forall ct,
         httpx.Headers_get "Content-Type" (httpx.resp_headers res) = Some ct ->
         httpx.lower ct <> "application/json" ->
         Client.get_async_result server json_loads task w
           = (Ok (ReadyRaw res), after w (Client.result_request task))) /\
    ((httpx.status_code res <> 200)%Z -> (httpx.status_code res <> 202)%Z ->
       fst (Client.get_async_result server json_loads task w)
         = Raise (ArynSDKException res)) /\
    (forall r, fst (Client.get_async_result server json_loads task w) = Ok r ->
       (r = Pending res /\ (httpx.status_code res = 202)%Z) \/
       (exists ct v,
          r = Ready res v /\ (httpx.status_code res = 200)%Z /\
          httpx.Headers_get "Content-Type" (httpx.resp_headers res) = Some ct /\
          httpx.lower ct = "application/json" /\
          json_loads (httpx.content res) = Some v) \/
       (exists ct,
          r = ReadyRaw res /\ (httpx.status_code res = 200)%Z /\
          httpx.Headers_get "Content-Type" (httpx.resp_headers res) = Some ct /\
          httpx.lower ct <> "application/json")).
Proof.
  intros server json_loads task w res Hs.
  destruct (Z_lt_ge_dec (httpx.status_code res) 300) as [Hlt | Hge].
  - rewrite (poll_passed server json_loads task w res Hs Hlt).
    repeat split.
    + intros H. rewrite H. reflexivity.
    + intros H ct v Hct Hj Hv. rewrite H, Hct, Hj, Hv. reflexivity.
    + intros H ct Hct Hj. rewrite H, Hct. cbn.
      apply String.eqb_neq in Hj. rewrite Hj. reflexivity.
    + intros H200 H202.
      apply Z.eqb_neq in H200. apply Z.eqb_neq in H202. rewrite H200, H202. reflexivity.
    + intros r.
      destruct (Z.eqb_spec (httpx.status_code res) 200) as [H200 | H200].
      * destruct (httpx.Headers_get _ _) as [ct |] eqn:Hct; [| discriminate].
        destruct (String.eqb_spec (httpx.lower ct) "application/json") as [Hj | Hj].
        -- destruct (json_loads (httpx.content res)) as [v |] eqn:Hv; [| discriminate].
           cbn. intros [= <-]. right. left. exists ct, v.
           repeat split; assumption.
        -- cbn. intros [= <-]. right. right. exists ct.
           repeat split; assumption.
      * destruct (Z.eqb_spec (httpx.status_code res) 202) as [H202 | H202].
        -- cbn. intros [= <-]. left. split; [reflexivity | assumption].
        -- discriminate.
  - rewrite (poll_api_error server json_loads task w res Hs Hge).
    repeat split.
    + intros H. lia.
    + intros H. lia.
    + intros H. lia.
    + intros r. discriminate.
Qed.

(** C9.  A 200 answer without any Content-Type header makes the poll raise
    an [AttributeError]: the header lookup gives [None] and [lower] is called
    on it.  None of the three outcomes and no API error comes out.  So a poll
    that returns on a 200 had a Content-Type header. *)
Theorem poll_without_content_type :
  forall (server : Server) (json_loads : list byte -> option json)
         (task : TaskArg) (w : World) (res : httpx.Response),
    server (sent w) (Client.result_request task) = Ok res ->
    (httpx.status_code res = 200)%Z ->
    (httpx.Headers_get "Content-Type" (httpx.resp_headers res) = None ->
       Client.get_async_result server json_loads task w
         = (Raise (AttributeError "'NoneType' object has no attribute 'lower'"),
            after w (Client.result_request task))) /\
    (forall r, fst (Client.get_async_result server json_loads task w) = Ok r ->
       exists ct, httpx.Headers_get "Content-Type" (httpx.resp_headers res) = Some ct).
Proof.
  intros server json_loads task w res Hs H200.
  rewrite (poll_passed server json_loads task w res Hs) by lia.
  rewrite H200. cbn. split.
  - intros ->. reflexivity.
  - intros r. destruct (httpx.Headers_get _ _) as [ct |]; [eauto | discriminate].
Qed.

(** * Addressing a task, cancelling it *)

Lemma sent_raw_then {A} (server : Server) req (k : httpx.Response -> M A) w :
  quiet k ->
  sent (snd ((res <- Client._make_raw_request server req ;; k res) w)) = sent (after w req).
Proof.
  intros Hk. unfold bind.
  pose proof (raw_request_sent server req w) as Hsent.
  destruct (Client._make_raw_request server req w) as [[res | e] w'].
  - rewrite Hk. exact Hsent.
  - exact Hsent.
Qed.

Lemma result_request_expected task :
  Client.result_request task =
    httpx.build_request "GET" ("/v1/async/result/" ++ expected_task_id task)
      (Some (expected_filters task)) None.
Proof.
  destruct task as [[id [method |] [path |]] | id]; reflexivity.
Qed.

Lemma cancel_request_expected task :
  Client.cancel_request task =
    httpx.build_request "POST" ("/v1/async/cancel/" ++ expected_task_id task)
      (Some (expected_filters task)) None.
Proof.
  destruct task as [[id [method |] [path |]] | id]; reflexivity.
Qed.

(** C4, as the specification states it, fails for a bare identifier: no
    filter should be sent, yet the poll of the bare identifier T1 sends a
    request whose [params] bind [method_filter] and [path_filter] to [None],
    and httpx writes both into the query with an empty value. *)
Lemma bare_id_sends_filters :
  sent (snd (Client.get_async_result (Samples.always Samples.pending) Samples.decode
               (BareId "T1") Samples.w0))
    = [httpx.build_request "GET" "/v1/async/result/T1"
         (Some {[ "method_filter" := httpx.PNone; "path_filter" := httpx.PNone ]}) None] /\
  httpx.query (httpx.build_request "GET" "/v1/async/result/T1"
                 (Some {[ "method_filter" := httpx.PNone; "path_filter" := httpx.PNone ]}) None)
    = {[ "method_filter" := ""; "path_filter" := "" ]} /\
  ~ sends_no_filters
      (httpx.build_request "GET" "/v1/async/result/T1"
         (Some {[ "method_filter" := httpx.PNone; "path_filter" := httpx.PNone ]}) None).
Proof.
  split; [reflexivity |]. split; [reflexivity |].
  intros [H _]. vm_compute in H. discriminate H.
Qed.

(** C4, amended.  A handle is addressed by its identifier with its
    submission method and path as filters, a bare identifier by itself with
    [None] for both.  Both go into one request shape: the poll sends one GET
    to [/v1/async/result/{task_id}] and cancel one POST to
    [/v1/async/cancel/{task_id}], and each request always carries both
    [method_filter] and [path_filter], bound to the method or path of the
    handle when it has one and to [None] when the handle holds [None] or the
    task is a bare identifier.  A parameter bound to [None] is not omitted:
    it goes into the query with an empty value. *)
Theorem task_addressing :
  (forall t,
     Client._get_task_and_filters (Handle t) = (task_id t, task_method t, task_path t)) /\
  (forall id, Client._get_task_and_filters (BareId id) = (id, None, None)) /\
  (forall (server : Server) (json_loads : list byte -> option json) task w,
     sent (snd (Client.get_async_result server json_loads task w))
       = sent (after w
                 (httpx.build_request "GET" ("/v1/async/result/" ++ expected_task_id task)
                    (Some (expected_filters task)) None))) /\
  (forall (server : Server) task w,
     sent (snd (Client.cancel_async_task server task w))
       = sent (after w
                 (httpx.build_request "POST" ("/v1/async/cancel/" ++ expected_task_id task)
                    (Some (expected_filters task)) None))) /\
  (forall task method url headers,
     httpx.query (httpx.build_request method url (Some (expected_filters task)) headers)
       = {[ "method_filter" := match task with
                               | Handle t => default "" (task_method t)
                               | BareId _ => ""
                               end;
            "path_filter" := match task with
                             | Handle t => default "" (task_path t)
                             | BareId _ => ""
                             end ]}).
Proof.
  split; [intros [id [m |] [p |]]; reflexivity |].
  split; [intros id; reflexivity |].
  split; [| split].
  - intros server json_loads task w. rewrite <- result_request_expected.
    unfold Client.get_async_result, Client._get_async_result_internal.
    apply sent_raw_then. apply quiet_poll_classification.
  - intros server task w. rewrite <- cancel_request_expected.
    unfold Client.cancel_async_task. apply sent_raw_then. intros res w'. reflexivity.
  - intros task method url headers.
    destruct task as [[id [m |] [p |]] | id]; reflexivity.
Qed.

(** C8.  Cancel sends one POST to [/v1/async/cancel/{task_id}] with the
    method and path of a handle as [method_filter] and [path_filter] ([None]
    for a filter that the handle lacks, and for a bare identifier), and on an
    answer below 300 returns the acknowledgement envelope, which holds that
    raw response and nothing else: whatever the body of the answer is,
    nothing is decoded. *)
Theorem cancel_acknowledgement :
  forall (server : Server) (task : TaskArg) (w : World) (res : httpx.Response),
    server (sent w)
      (httpx.build_request "POST" ("/v1/async/cancel/" ++ expected_task_id task)
         (Some (expected_filters task)) None) = Ok res ->
    (httpx.status_code res < 300)%Z ->
    Client.cancel_async_task server task w
      = (Ok (mkSimpleResponse res),
         after w
           (httpx.build_request "POST" ("/v1/async/cancel/" ++ expected_task_id task)
              (Some (expected_filters task)) None)).
Proof.
  intros server task w res. rewrite <- cancel_request_expected. intros Hs Hc.
  unfold Client.cancel_async_task, bind.
  rewrite (raw_request_ok server _ w res Hs Hc). reflexivity.
Qed.

(** * Envelope construction *)

(** C7.  On an answer below 300, [_make_request] decodes the body as the
    expected shape and returns the envelope that pairs the raw response with
    the decoded value.  A body that is not JSON, a JSON value that is not an
    object, and an object that the shape rejects each raise the error of the
    step that failed.  An envelope is returned only with the value that
    decoding the body gave: there is no default and no partial value. *)
Theorem envelope_construction :
  forall (server : Server) (json_loads : list byte -> option json) (R : Type)
         (response_type : gmap string json -> outcome R)
         (req : httpx.Request) (w : World) (res : httpx.Response),
    server (sent w) req = Ok res ->
    (httpx.status_code res < 300)%Z ->
    (forall fields v,
       json_loads (httpx.content res) = Some (JObj fields) ->
       response_type fields = Ok v ->
       Client._make_request server json_loads req response_type w
         = (Ok (mkResponse res v), after w req)) /\
    (json_loads (httpx.content res) = None ->
       Client._make_request server json_loads req response_type w
         = (Raise JSONDecodeError, after w req)) /\
    (forall body,
       json_loads (httpx.content res) = Some body ->
       (forall fields, body <> JObj fields) ->
       Client._make_request server json_loads req response_type w
         = (Raise (TypeError ("argument after ** must be a mapping, not "
                              ++ json_type_name body)), after w req)) /\
    (forall fields e,
       json_loads (httpx.content res) = Some (JObj fields) ->
       response_type fields = Raise e ->
       Client._make_request server json_loads req response_type w
         = (Raise e, after w req)) /\
    (forall r,
       fst (Client._make_request server json_loads req response_type w) = Ok r ->
       raw_response r = res /\
       exists fields,
         json_loads (httpx.content res) = Some (JObj fields) /\
         response_type fields = Ok (value r)).
Proof.
  intros server json_loads R response_type req w res Hs Hc.
  assert (Hrun : Client._make_request server json_loads req response_type w =
            match (body <~ Client.res_json json_loads res ;;
                   kwargs <~ py_kwargs body ;; response_type kwargs) with
            | Ok v => (Ok (mkResponse res v), after w req)
            | Raise e => (Raise e, after w req)
            end).
  { unfold Client._make_request. unfold bind at 1.
    rewrite (raw_request_ok server req w res Hs Hc).
    unfold bind, lift. destruct (obind _ _); reflexivity. }
  rewrite Hrun. clear Hrun. unfold Client.res_json, obind.
  repeat split.
  - intros fields v Hj Hv. rewrite Hj. cbn. rewrite Hv. reflexivity.
  - intros Hj. rewrite Hj. reflexivity.
  - intros body Hj Hb. rewrite Hj.
    destruct body; try reflexivity. exfalso. eapply Hb. reflexivity.
  - intros fields e Hj He. rewrite Hj. cbn. rewrite He. reflexivity.
  - destruct (json_loads (httpx.content res)) as [body |]; [| discriminate H].
    destruct body; try discriminate H. cbn in H.
    destruct (response_type m); [| discriminate H]. cbn in H. injection H as <-. reflexivity.
  - destruct (json_loads (httpx.content res)) as [body |]; [| discriminate H].
    destruct body; try discriminate H. cbn in H.
    destruct (response_type m) eqn:Hm; [| discriminate H]. cbn in H. injection H as <-.
    exists m. split; [reflexivity | exact Hm].
Qed.

(** * Traversing a listing *)

Section TraversalFacts.

Context (server : Server).
Context (json_loads : list byte -> option json).
Context {T : Type}.

Local Abbreviation materialize := (Pagination.materialize server json_loads).
Local Abbreviation decode_page := (Pagination.decode_page json_loads).

(** The engine that a list operation builds around the answer to [first]. *)
Local Abbreviation engine shape key first res :=
  (mkPaginatedResponse res shape key [httpx.method first; httpx.url first]
     {| kw_params := httpx.params first; kw_headers := httpx.headers first |}).

Lemma omap_list_decodes (shape : gmap string json -> outcome T) raws page :
  Forall2 (fun raw item => exists fields, raw = JObj fields /\ shape fields = Ok item)
    raws page ->
  omap_list (fun x => kwargs <~ py_kwargs x ;; shape kwargs) raws = Ok page.
Proof.
  induction 1 as [| raw item raws page (fields & -> & Hitem) _ IH]; [reflexivity |].
  cbn. rewrite Hitem. cbn. rewrite IH. reflexivity.
Qed.

(** A page presented under the wire contract is the page decoded. *)
Lemma decode_presents (p : PaginatedResponse T) res page token :
  Pagination.presents json_loads (response_type p) (list_key p) res page token ->
  decode_page p res = Ok (page, token).
Proof.
  intros (body & raws & Hj & Hk & Hall & Htok).
  unfold Pagination.decode_page, Client.res_json. rewrite Hj. cbn.
  unfold Pagination.raw_items. rewrite Hk. cbn.
  rewrite (omap_list_decodes _ _ _ Hall). cbn.
  unfold Pagination.next_page_token.
  destruct token as [t |]; [rewrite Htok; reflexivity |].
  destruct Htok as [-> | ->]; reflexivity.
Qed.

(** A held page without a token ends the traversal where it stands. *)
Lemma materialize_last (p : PaginatedResponse T) items fuel w :
  decode_page p (curr_response p) = Ok (items, None) ->
  materialize (S fuel) p w = (Ok (Some items), w).
Proof.
  intros Hd. cbn [Pagination.materialize]. unfold bind, lift. rewrite Hd. reflexivity.
Qed.

(** A held page with a token: the continuation fetch, then the rest of the
    traversal. *)
Lemma materialize_step (p : PaginatedResponse T) items token req fuel w :
  decode_page p (curr_response p) = Ok (items, Some token) ->
  build_request_star (request_args p)
    (Pagination.with_page_token (request_kwargs p) token) = Ok req ->
  materialize (S fuel) p w =
    match (res <- Client._make_raw_request server req ;;
           materialize fuel (Pagination.hold p res)) w with
    | (Ok rest, w') => (Ok (app items <$> rest), w')
    | (Raise e, w') => (Raise e, w')
    end.
Proof.
  intros Hd Hb. cbn [Pagination.materialize].
  unfold bind at 1. unfold lift at 1. rewrite Hd. cbn [fst snd].
  unfold Pagination.fetch_next. unfold bind at 2. unfold lift at 1. rewrite Hb.
  unfold bind.
  destruct (Client._make_raw_request server req w) as [[res | e] w']; [| reflexivity].
  destruct (materialize fuel _ w') as [[rest | e] w'']; reflexivity.
Qed.

(** The first request and every continuation of a listing, traversed. *)
Lemma fetch_listing (shape : gmap string json -> outcome T) key first pages :
  forall tokens req w fuel,
    Pagination.listing server json_loads shape key first (sent w) req pages tokens ->
    length pages <= fuel ->
    (res <- Client._make_raw_request server req ;;
     materialize fuel (engine shape key first res)) w
      = (Ok (Some (concat pages)),
         {| sent := (sent w ++ req :: List.map (Pagination.next_page_request first) tokens)%list;
            logged := logged w |}) /\
    length pages = S (length tokens).
Proof.
  induction pages as [| page later IH]; intros tokens req w fuel; [intros [] |].
  intros (res & Hs & Hc & Hrest) Hfuel.
  destruct fuel as [| fuel]; [cbn in Hfuel; lia |].
  unfold bind at 1. rewrite (raw_request_ok server req w res Hs Hc).
  destruct later as [| next later'].
  - destruct tokens; [| destruct Hrest].
    rewrite (materialize_last (engine shape key first res) page fuel (after w req)
               (decode_presents (engine shape key first res) res page None Hrest)).
    cbn [concat]. rewrite app_nil_r. split; reflexivity.
  - destruct tokens as [| token tokens']; [destruct Hrest |].
    destruct Hrest as (Hpage & Hlater).
    destruct (IH tokens' (Pagination.next_page_request first token) (after w req) fuel)
      as (Hrun & Hlen).
    { exact Hlater. }
    { cbn [length] in *. lia. }
    rewrite (materialize_step (engine shape key first res) page token
               (Pagination.next_page_request first token) fuel (after w req)
               (decode_presents (engine shape key first res) res page (Some token) Hpage)
               eq_refl).
    unfold Pagination.hold. cbn [response_type list_key request_args request_kwargs].
    rewrite Hrun. cbn [fmap option_fmap option_map after sent logged List.map concat length].
    rewrite <- app_assoc. split; [reflexivity | cbn [length] in *; lia].
Qed.

End TraversalFacts.

Lemma bind_ret_then {A B C} (c : M A) (f : A -> B) (k : B -> M C) w :
  (b <- (a <- c ;; ret (f a)) ;; k b) w = (a <- c ;; k (f a)) w.
Proof.
  unfold bind, ret. destruct (c w) as [[a | e] w']; reflexivity.
Qed.

(** C3.  For a listing of N items over P pages, P at least one, that the
    server holds behind the first request of [list_docsets] or [list_docs],
    the engine that the operation returns materializes to exactly the N
    decoded items in the order of the server, whatever the sizes of the pages
    (a single page and no item at all included).  The requests sent are the
    first request and then, for each of the P - 1 tokens in turn, that
    request with [page_token] set to the token and nothing else changed.  An
    engine whose held page carries no token returns the items of that page
    and sends nothing. *)
Theorem listing_materializes :
  forall (server : Server) (json_loads : list byte -> option json),
    (forall R (rt : gmap string json -> outcome R) name_eq page_size page_token extra
            (pages : list (list R)) (tokens : list string) (fuel : nat) (w : World),
       Pagination.listing server json_loads rt "items"
         (httpx.build_request "GET" "/v1/storage/docsets"
            (Client.or_None
               (Client.set_if "page_token" httpx.PStr page_token
                  (Client.set_if "page_size" httpx.PInt page_size
                     (Client.set_if "name_eq" httpx.PStr name_eq ∅))))
            extra)
         (sent w)
         (httpx.build_request "GET" "/v1/storage/docsets"
            (Client.or_None
               (Client.set_if "page_token" httpx.PStr page_token
                  (Client.set_if "page_size" httpx.PInt page_size
                     (Client.set_if "name_eq" httpx.PStr name_eq ∅))))
            extra)
         pages tokens ->
       length pages <= fuel ->
       (p <- Client.list_docsets server rt name_eq page_size page_token extra ;;
        Pagination.materialize server json_loads fuel p) w
         = (Ok (Some (concat pages)),
            {| sent :=
                 (sent w ++
                  httpx.build_request "GET" "/v1/storage/docsets"
                    (Client.or_None
                       (Client.set_if "page_token" httpx.PStr page_token
                          (Client.set_if "page_size" httpx.PInt page_size
                             (Client.set_if "name_eq" httpx.PStr name_eq ∅))))
                    extra
                  :: List.map
                       (Pagination.next_page_request
                          (httpx.build_request "GET" "/v1/storage/docsets"
                             (Client.or_None
                                (Client.set_if "page_token" httpx.PStr page_token
                                   (Client.set_if "page_size" httpx.PInt page_size
                                      (Client.set_if "name_eq" httpx.PStr name_eq ∅))))
                             extra))
                       tokens)%list;
               logged := logged w |}) /\
       length pages = S (length tokens)) /\
    (forall R (rt : gmap string json -> outcome R) docset_id page_size page_token extra
            (pages : list (list R)) (tokens : list string) (fuel : nat) (w : World),
       Pagination.listing server json_loads rt "items"
         (httpx.build_request "GET" ("/v1/storage/docsets/" ++ docset_id ++ "/docs")
            (Client.or_None
               (Client.set_if "page_token" httpx.PStr page_token
                  (Client.set_if "page_size" httpx.PInt page_size ∅)))
            extra)
         (sent w)
         (httpx.build_request "GET" ("/v1/storage/docsets/" ++ docset_id ++ "/docs")
            (Client.or_None
               (Client.set_if "page_token" httpx.PStr page_token
                  (Client.set_if "page_size" httpx.PInt page_size ∅)))
            extra)
         pages tokens ->
       length pages <= fuel ->
       (p <- Client.list_docs server rt docset_id page_size page_token extra ;;
        Pagination.materialize server json_loads fuel p) w
         = (Ok (Some (concat pages)),
            {| sent :=
                 (sent w ++
                  httpx.build_request "GET" ("/v1/storage/docsets/" ++ docset_id ++ "/docs")
                    (Client.or_None
                       (Client.set_if "page_token" httpx.PStr page_token
                          (Client.set_if "page_size" httpx.PInt page_size ∅)))
                    extra
                  :: List.map
                       (Pagination.next_page_request
                          (httpx.build_request "GET"
                             ("/v1/storage/docsets/" ++ docset_id ++ "/docs")
                             (Client.or_None
                                (Client.set_if "page_token" httpx.PStr page_token
                                   (Client.set_if "page_size" httpx.PInt page_size ∅)))
                             extra))
                       tokens)%list;
               logged := logged w |}) /\
       length pages = S (length tokens)) /\
    (forall T (p : PaginatedResponse T) items fuel w,
       Pagination.presents json_loads (response_type p) (list_key p) (curr_response p)
         items None ->
       Pagination.materialize server json_loads (S fuel) p w = (Ok (Some items), w)).
Proof.
  intros server json_loads. split; [| split].
  - intros R rt name_eq page_size page_token extra pages tokens fuel w Hlisting Hfuel.
    destruct (fetch_listing server json_loads rt "items" _ pages tokens _ w fuel
                Hlisting Hfuel) as (Hrun & Hlen).
    split; [| exact Hlen]. rewrite <- Hrun.
    unfold Client.list_docsets, Client._make_paginated_request.
    apply (bind_ret_then (Client._make_raw_request server _)).
  - intros R rt docset_id page_size page_token extra pages tokens fuel w Hlisting Hfuel.
    destruct (fetch_listing server json_loads rt "items" _ pages tokens _ w fuel
                Hlisting Hfuel) as (Hrun & Hlen).
    split; [| exact Hlen]. rewrite <- Hrun.
    unfold Client.list_docs, Client._make_paginated_request.
    apply (bind_ret_then (Client._make_raw_request server _)).
  - intros T p items fuel w Hpage.
    apply materialize_last. apply decode_presents. exact Hpage.
Qed.

(** * The statements at work on the samples *)

(** The amended C1 at work: a 202, a 200 with JSON, a 200 with text, and a
    204. *)
Lemma poll_outcome_witness :
  fst (Client.get_async_result (Samples.always Samples.pending) Samples.decode
         (BareId "T1") Samples.w0) = Ok (Pending Samples.pending) /\
  fst (Client.get_async_result (Samples.always Samples.ready) Samples.decode
         (BareId "T1") Samples.w0) = Ok (Ready Samples.ready (JObj {[ "x" := JInt 1 ]})) /\
  fst (Client.get_async_result (Samples.always Samples.ready_raw) Samples.decode
         (BareId "T1") Samples.w0) = Ok (ReadyRaw Samples.ready_raw) /\
  fst (Client.get_async_result (Samples.always Samples.no_content) Samples.decode
         (BareId "T1") Samples.w0) = Raise (ArynSDKException Samples.no_content).
Proof.
  destruct (poll_outcome (Samples.always Samples.pending) Samples.decode
              (BareId "T1") Samples.w0 Samples.pending eq_refl) as (H1 & _).
  destruct (poll_outcome (Samples.always Samples.ready) Samples.decode
              (BareId "T1") Samples.w0 Samples.ready eq_refl) as (_ & H2 & _).
  destruct (poll_outcome (Samples.always Samples.ready_raw) Samples.decode
              (BareId "T1") Samples.w0 Samples.ready_raw eq_refl) as (_ & _ & H3 & _).
  destruct (poll_outcome (Samples.always Samples.no_content) Samples.decode
              (BareId "T1") Samples.w0 Samples.no_content eq_refl) as (_ & _ & _ & H4 & _).
  split; [rewrite (H1 eq_refl); reflexivity |].
  split.
  { rewrite (H2 eq_refl "Application/JSON" (JObj {[ "x" := JInt 1 ]}) eq_refl eq_refl eq_refl).
    reflexivity. }
  split.
  { rewrite (H3 eq_refl "text/plain" eq_refl); [reflexivity | discriminate]. }
  apply H4; discriminate.
Defined.

(** C9 at work: a 200 without headers. *)
Lemma poll_without_content_type_witness :
  fst (Client.get_async_result (Samples.always Samples.bare_ok) Samples.decode
         (Handle Samples.task) Samples.w0)
    = Raise (AttributeError "'NoneType' object has no attribute 'lower'").
Proof.
  destruct (poll_without_content_type (Samples.always Samples.bare_ok) Samples.decode
              (Handle Samples.task) Samples.w0 Samples.bare_ok eq_refl eq_refl) as (H1 & _).
  rewrite (H1 eq_refl). reflexivity.
Defined.

(** C2 at work: a 404 is raised, a 200 is passed on; the poll and the
    continuation fetch raise the 404 as well. *)
Lemma api_error_classification_witness :
  Client._make_raw_request (Samples.always Samples.not_found)
      (Client.result_request (BareId "T1")) Samples.w0
    = (Raise (ArynSDKException Samples.not_found),
       after Samples.w0 (Client.result_request (BareId "T1"))) /\
  Client._make_raw_request (Samples.always Samples.ready)
      (Client.result_request (BareId "T1")) Samples.w0
    = (Ok Samples.ready, after Samples.w0 (Client.result_request (BareId "T1"))) /\
  fst (Client.get_async_result (Samples.always Samples.not_found) Samples.decode
         (BareId "T1") Samples.w0) = Raise (ArynSDKException Samples.not_found) /\
  Pagination.materialize (Samples.always Samples.not_found) Samples.decode 2
      (mkPaginatedResponse Samples.page1 Samples.item "items"
         ["GET"; "/v1/storage/docsets"] (mkKwargs None None)) Samples.w0
    = (Raise (ArynSDKException Samples.not_found),
       after Samples.w0
         (httpx.build_request "GET" "/v1/storage/docsets"
            (Some {[ "page_token" := httpx.PStr "t1" ]}) None)).
Proof.
  destruct (api_error_classification (Samples.always Samples.not_found) Samples.decode)
    as (Hraw & _ & _ & _ & _ & _ & _ & _ & Hpoll & _ & Hmat).
  destruct (api_error_classification (Samples.always Samples.ready) Samples.decode)
    as (Hraw' & _).
  split.
  { apply (Hraw _ Samples.w0 Samples.not_found eq_refl). cbn. lia. }
  split.
  { apply (Hraw' _ Samples.w0 Samples.ready eq_refl). cbn. lia. }
  split.
  { apply (Hpoll (BareId "T1") Samples.w0 (Client.result_request (BareId "T1"))
             Samples.not_found).
    - reflexivity.
    - reflexivity.
    - cbn. lia. }
  apply (Hmat string _ 1 Samples.w0 ["a"; "b"] "t1").
  - vm_compute. reflexivity.
  - vm_compute. reflexivity.
  - reflexivity.
  - cbn. lia.
Defined.

(** The amended C4 at work: the poll of a handle sends its method and path,
    cancel of a bare identifier sends both filters bound to [None]. *)
Lemma task_addressing_witness :
  sent (snd (Client.get_async_result (Samples.always Samples.pending) Samples.decode
               (Handle Samples.task) Samples.w0))
    = [httpx.build_request "GET" "/v1/async/result/T1"
         (Some {[ "method_filter" := httpx.PStr "POST";
                  "path_filter" := httpx.PStr "/jobs/extract-properties" ]}) None] /\
  sent (snd (Client.cancel_async_task (Samples.always Samples.pending)
               (BareId "T1") Samples.w0))
    = [httpx.build_request "POST" "/v1/async/cancel/T1"
         (Some {[ "method_filter" := httpx.PNone; "path_filter" := httpx.PNone ]}) None].
Proof.
  destruct task_addressing as (_ & _ & Hpoll & Hcancel & _).
  split.
  - rewrite (Hpoll (Samples.always Samples.pending) Samples.decode
               (Handle Samples.task) Samples.w0). reflexivity.
  - rewrite (Hcancel (Samples.always Samples.pending) (BareId "T1") Samples.w0).
    reflexivity.
Defined.

(** C8 at work: cancelling a handle, with a body that is no JSON at all. *)
Lemma cancel_acknowledgement_witness :
  Client.cancel_async_task (Samples.always Samples.garbled) (Handle Samples.task) Samples.w0
    = (Ok (mkSimpleResponse Samples.garbled),
       after Samples.w0
         (httpx.build_request "POST" "/v1/async/cancel/T1"
            (Some {[ "method_filter" := httpx.PStr "POST";
                     "path_filter" := httpx.PStr "/jobs/extract-properties" ]}) None)).
Proof.
  apply (cancel_acknowledgement (Samples.always Samples.garbled) (Handle Samples.task)
           Samples.w0 Samples.garbled).
  - reflexivity.
  - cbn. lia.
Defined.

(** C7 at work: a body of the expected shape, a body that is not JSON, and
    a JSON array where an object is expected. *)
Lemma envelope_construction_witness :
  fst (Client._make_request (Samples.always Samples.ready) Samples.decode
         (Client.result_request (BareId "T1"))
         (fun fields => match fields !! "x" with
                        | Some (JInt x) => Ok x
                        | _ => Raise ValidationError
                        end) Samples.w0)
    = Ok (mkResponse Samples.ready 1%Z) /\
  fst (Client._make_request (Samples.always Samples.garbled) Samples.decode
         (Client.result_request (BareId "T1")) Samples.item Samples.w0)
    = Raise JSONDecodeError /\
  fst (Client._make_request (Samples.always Samples.array) Samples.decode
         (Client.result_request (BareId "T1")) Samples.item Samples.w0)
    = Raise (TypeError "argument after ** must be a mapping, not list") /\
  fst (Client._make_request (Samples.always Samples.ready) Samples.decode
         (Client.result_request (BareId "T1")) Samples.item Samples.w0)
    = Raise ValidationError.
Proof.
  split.
  { destruct (envelope_construction (Samples.always Samples.ready) Samples.decode Z
                (fun fields => match fields !! "x" with
                               | Some (JInt x) => Ok x
                               | _ => Raise ValidationError
                               end)
                (Client.result_request (BareId "T1")) Samples.w0 Samples.ready eq_refl)
      as (H1 & _).
    - cbn. lia.
    - rewrite (H1 {[ "x" := JInt 1 ]} 1%Z eq_refl eq_refl). reflexivity. }
  split.
  { destruct (envelope_construction (Samples.always Samples.garbled) Samples.decode string
                Samples.item (Client.result_request (BareId "T1")) Samples.w0
                Samples.garbled eq_refl) as (_ & H2 & _).
    - cbn. lia.
    - rewrite (H2 eq_refl). reflexivity. }
  split.
  { destruct (envelope_construction (Samples.always Samples.array) Samples.decode string
                Samples.item (Client.result_request (BareId "T1")) Samples.w0
                Samples.array eq_refl) as (_ & _ & H3 & _).
    - cbn. lia.
    - rewrite (H3 (JArr []) eq_refl); [reflexivity | discriminate]. }
  destruct (envelope_construction (Samples.always Samples.ready) Samples.decode string
              Samples.item (Client.result_request (BareId "T1")) Samples.w0
              Samples.ready eq_refl) as (_ & _ & _ & H4 & _).
  - cbn. lia.
  - rewrite (H4 {[ "x" := JInt 1 ]} ValidationError eq_refl eq_refl). reflexivity.
Defined.

(** C3 at work: a listing filtered by name with a page size; items a and b
    on a first page with the token t1, item c on a second page without a
    token.  The traversal returns a, b, c after two requests, the second
    being the first with the token added. *)
Lemma listing_materializes_witness :
  (p <- Client.list_docsets Samples.paged Samples.item (Some "reports") (Some 2%Z) None None ;;
   Pagination.materialize Samples.paged Samples.decode 2 p) Samples.w0
    = (Ok (Some ["a"; "b"; "c"]),
       {| sent :=
            [httpx.build_request "GET" "/v1/storage/docsets"
               (Some {[ "name_eq" := httpx.PStr "reports"; "page_size" := httpx.PInt 2 ]})
               None;
             httpx.build_request "GET" "/v1/storage/docsets"
               (Some {[ "name_eq" := httpx.PStr "reports"; "page_size" := httpx.PInt 2;
                        "page_token" := httpx.PStr "t1" ]})
               None];
          logged := [] |}).
Proof.
  destruct (listing_materializes Samples.paged Samples.decode) as (Hdocsets & _).
  destruct (Hdocsets string Samples.item (Some "reports") (Some 2%Z) None None
              [["a"; "b"]; ["c"]] ["t1"] 2 Samples.w0) as (Hrun & _).
  - cbn [Pagination.listing].
    exists Samples.page1. split; [reflexivity |]. split; [cbn; lia |]. split.
    + eexists _, _. split; [vm_compute; reflexivity |].
      split; [vm_compute; reflexivity |].
      split; [| vm_compute; reflexivity].
      repeat constructor; eexists; (split; [reflexivity | vm_compute; reflexivity]).
    + exists Samples.page2. split; [vm_compute; reflexivity |]. split; [cbn; lia |].
      eexists _, _. split; [vm_compute; reflexivity |].
      split; [vm_compute; reflexivity |].
      split; [| right; vm_compute; reflexivity].
      repeat constructor; eexists; (split; [reflexivity | vm_compute; reflexivity]).
  - cbn. lia.
  - rewrite Hrun. vm_compute. reflexivity.
Defined.

(** * Further properties of the resolution *)

(** [aryn_url] never returns [None].  Whatever it returns is not null, and
    an [aryn_url] entry of the configuration file that is null is treated
    like a missing one: the [ValueError] that names the three sources is
    raised. *)
Theorem aryn_url_never_null :
  forall (self : ArynConfig.t) (os : OsEnv),
    (forall u, ArynConfig.aryn_url self os = Ok u -> u <> YNull) /\
    (forall m, ArynConfig._aryn_url self = None ->
       unset_or_empty os "ARYN_API_URL" ->
       files os !! ArynConfig._aryn_config_path self = Some (Ok (YMap m)) ->
       m !! "aryn_url" = Some YNull ->
       ArynConfig.aryn_url self os = Raise (ValueError (ArynConfig.aryn_url_error self))).
Proof.
  intros self os. split.
  - intros u. unfold ArynConfig.aryn_url.
    destruct (ArynConfig.aryn_url_lookup self os) as [[] | e]; intros H; try discriminate H;
      injection H as <-; discriminate.
  - intros m Hp Hu Hf Hm.
    unfold ArynConfig.aryn_url, ArynConfig.aryn_url_lookup, ArynConfig._ARYN_URL_ENV_VAR.
    rewrite Hp, (getenv_if_unset os _ Hu), Hf. cbn.
    rewrite bool_decide_eq_true_2 by (rewrite Hm; eauto).
    rewrite Hm. reflexivity.
Qed.

(** A null URL entry at work. *)
Lemma aryn_url_never_null_witness :
  ArynConfig.aryn_url (Samples.config None None) Samples.null_url_file =
    Raise (ValueError (ArynConfig.aryn_url_error (Samples.config None None))) /\
  YStr "https://api.aryn.ai" <> YNull.
Proof.
  destruct (aryn_url_never_null (Samples.config None None) Samples.null_url_file)
    as (_ & H2).
  destruct (aryn_url_never_null (Samples.config None None) Samples.bare) as (H1 & _).
  split.
  - apply (H2 {[ "aryn_url" := YNull ]}); [reflexivity | left; reflexivity | reflexivity ..].
  - apply H1. reflexivity.
Defined.

(** Only a mapping can supply a key or a URL.  When the resolution reaches a
    configuration file whose parsed content is not a mapping (null, a
    scalar, a string, a sequence), [api_key] and [aryn_url] raise: a
    [TypeError] from the membership test or from the subscript, or else the
    [ValueError] that names the three sources. *)
Theorem config_file_must_be_mapping :
  forall (self : ArynConfig.t) (os : OsEnv) (data : yaml),
    files os !! ArynConfig._aryn_config_path self = Some (Ok data) ->
    is_mapping data = false ->
    (ArynConfig._aryn_api_key self = None -> unset_or_empty os "ARYN_API_KEY" ->
       ArynConfig.api_key self os = Raise (ValueError (ArynConfig.api_key_error self)) \/
       exists msg, ArynConfig.api_key self os = Raise (TypeError msg)) /\
    (ArynConfig._aryn_url self = None -> unset_or_empty os "ARYN_API_URL" ->
       ArynConfig.aryn_url self os = Raise (ValueError (ArynConfig.aryn_url_error self)) \/
       exists msg, ArynConfig.aryn_url self os = Raise (TypeError msg)).
Proof.
  intros self os data Hf Hm. split.
  - intros Hp Hu.
    unfold ArynConfig.api_key, ArynConfig._ARYN_API_KEY_ENV_VAR.
    rewrite Hp, (getenv_if_unset os _ Hu).
    unfold ArynConfig.api_key_from_file. rewrite Hf.
    destruct data as [| b | z | s | l | m]; try discriminate Hm; cbn; eauto.
    + destruct (str_contains "aryn_token" s); cbn; eauto.
    + destruct (existsb _ l); cbn; eauto.
  - intros Hp Hu.
    unfold ArynConfig.aryn_url, ArynConfig.aryn_url_lookup, ArynConfig._ARYN_URL_ENV_VAR.
    rewrite Hp, (getenv_if_unset os _ Hu), Hf.
    destruct data as [| b | z | s | l | m]; try discriminate Hm; cbn; eauto.
    + destruct (str_contains "aryn_url" s); cbn; eauto.
    + destruct (existsb _ l); cbn; eauto.
Qed.

(** A configuration file of plain text at work: the text mentions the token,
    the membership test succeeds, and the subscript raises. *)
Lemma config_file_must_be_mapping_witness :
  (ArynConfig.api_key (Samples.config None None) Samples.text_file
     = Raise (ValueError (ArynConfig.api_key_error (Samples.config None None))) \/
   exists msg, ArynConfig.api_key (Samples.config None None) Samples.text_file
                 = Raise (TypeError msg)) /\
  ArynConfig.api_key (Samples.config None None) Samples.text_file
    = Raise (TypeError "string indices must be integers").
Proof.
  destruct (config_file_must_be_mapping (Samples.config None None) Samples.text_file
              (YStr "aryn_token=abc") eq_refl eq_refl) as (H & _).
  split.
  - apply H; [reflexivity | left; reflexivity].
  - vm_compute. reflexivity.
Defined.

(** An error of opening or parsing the configuration file is raised as it
    is by [api_key] and by [aryn_url], when the parameter is [None] and the
    environment variable is unset or empty; with a parameter or a variable
    the file is not touched and the error does not show. *)
Theorem config_file_error_propagates :
  forall (self : ArynConfig.t) (os : OsEnv) (e : exn),
    files os !! ArynConfig._aryn_config_path self = Some (Raise e) ->
    (ArynConfig._aryn_api_key self = None -> unset_or_empty os "ARYN_API_KEY" ->
       ArynConfig.api_key self os = Raise e) /\
    (ArynConfig._aryn_url self = None -> unset_or_empty os "ARYN_API_URL" ->
       ArynConfig.aryn_url self os = Raise e) /\
    (forall k, ArynConfig._aryn_api_key self = Some k ->
       ArynConfig.api_key self os = Ok (YStr k)) /\
    (forall v, ArynConfig._aryn_api_key self = None ->
       environ os !! "ARYN_API_KEY" = Some v -> v <> "" ->
       ArynConfig.api_key self os = Ok (YStr v)).
Proof.
  intros self os e Hf. repeat split.
  - intros Hp Hu. unfold ArynConfig.api_key, ArynConfig._ARYN_API_KEY_ENV_VAR.
    rewrite Hp, (getenv_if_unset os _ Hu).
    unfold ArynConfig.api_key_from_file. rewrite Hf. reflexivity.
  - intros Hp Hu.
    unfold ArynConfig.aryn_url, ArynConfig.aryn_url_lookup, ArynConfig._ARYN_URL_ENV_VAR.
    rewrite Hp, (getenv_if_unset os _ Hu), Hf. reflexivity.
  - intros k Hp. unfold ArynConfig.api_key. rewrite Hp. reflexivity.
  - intros v Hp Hv Hne. unfold ArynConfig.api_key, ArynConfig._ARYN_API_KEY_ENV_VAR.
    rewrite Hp, (getenv_if_set os _ v Hv Hne). reflexivity.
Qed.

(** An unreadable configuration file at work. *)
Lemma config_file_error_propagates_witness :
  ArynConfig.api_key (Samples.config None None) Samples.broken_file
    = Raise (FileError "permission denied") /\
  ArynConfig.aryn_url (Samples.config None None) Samples.broken_file
    = Raise (FileError "permission denied") /\
  ArynConfig.api_key (Samples.config (Some "k") None) Samples.broken_file = Ok (YStr "k").
Proof.
  destruct (config_file_error_propagates (Samples.config None None) Samples.broken_file
              (FileError "permission denied") eq_refl) as (H1 & H2 & _).
  destruct (config_file_error_propagates (Samples.config (Some "k") None) Samples.broken_file
              (FileError "permission denied") eq_refl) as (_ & _ & H3 & _).
  split; [apply H1; [reflexivity | left; reflexivity] |].
  split; [apply H2; [reflexivity | left; reflexivity] |].
  apply H3. reflexivity.
Defined.

(** * Further properties of the constructor *)

Lemma init_run os url key extra w :
  Client.__init__ os url key extra w =
    match ArynConfig.api_key (ArynConfig.__init__ (ArynConfig._DEFAULT_PATH os) key url) os with
    | Raise e => (Raise e, w)
    | Ok k =>
        match ArynConfig.aryn_url
                (ArynConfig.__init__ (ArynConfig._DEFAULT_PATH os) key url) os with
        | Raise e => (Raise e, w)
        | Ok base =>
            (Ok {| Client.aryn_url := url;
                   Client.config := ArynConfig.__init__ (ArynConfig._DEFAULT_PATH os) key url;
                   Client.client_base_url := base;
                   Client.client_headers :=
                     {[ "Authorization" := Client.Bearer k ]}
                     ∪ (Client.Plain <$> Client.or_empty extra) |}, w)
        end
    end.
Proof.
  unfold Client.__init__, bind, lift, ret.
  destruct (ArynConfig.api_key _ os); [| reflexivity].
  destruct (ArynConfig.aryn_url _ os); reflexivity.
Qed.

(** The constructor sends no request, whether it succeeds or fails, and it
    resolves the key before the URL: when the key cannot be resolved, the
    error of the key is the one raised, whatever the URL resolution would
    have done. *)
Theorem constructor_sends_nothing :
  forall (os : OsEnv) (url key : option string) (extra : option (gmap string string))
         (w : World),
    snd (Client.__init__ os url key extra w) = w /\
    (forall e,
       ArynConfig.api_key (ArynConfig.__init__ (ArynConfig._DEFAULT_PATH os) key url) os
         = Raise e ->
       fst (Client.__init__ os url key extra w) = Raise e) /\
    (forall k e,
       ArynConfig.api_key (ArynConfig.__init__ (ArynConfig._DEFAULT_PATH os) key url) os
         = Ok k ->
       ArynConfig.aryn_url (ArynConfig.__init__ (ArynConfig._DEFAULT_PATH os) key url) os
         = Raise e ->
       fst (Client.__init__ os url key extra w) = Raise e).
Proof.
  intros os url key extra w. rewrite init_run. repeat split.
  - destruct (ArynConfig.api_key _ os); [| reflexivity].
    destruct (ArynConfig.aryn_url _ os); reflexivity.
  - intros e ->. reflexivity.
  - intros k e -> ->. reflexivity.
Qed.

(** The constructor at work with no URL given.  With an empty configuration
    file both resolutions would fail, and the error is the one of the key;
    with a file that holds a token and no URL, the error is the one of the
    URL. *)
Lemma constructor_sends_nothing_witness :
  snd (Client.__init__ Samples.token_file None None None Samples.w0) = Samples.w0 /\
  fst (Client.__init__ Samples.empty_file None None None Samples.w0)
    = Raise (TypeError "argument of type 'NoneType' is not iterable") /\
  fst (Client.__init__ Samples.token_file None None None Samples.w0)
    = Raise (ValueError (ArynConfig.aryn_url_error (Samples.config None None))).
Proof.
  destruct (constructor_sends_nothing Samples.token_file None None None Samples.w0)
    as (H1 & _ & H3).
  destruct (constructor_sends_nothing Samples.empty_file None None None Samples.w0)
    as (_ & H2 & _).
  split; [exact H1 |].
  split; [apply H2; reflexivity |].
  apply (H3 (YStr "file-key")); reflexivity.
Defined.

(** The headers dictionary that the constructor hands to [httpx.Client]
    binds the key [Authorization], in this exact spelling, to the bearer of
    the resolved key: an entry of [extra_headers] under that exact key is
    replaced.  Every entry of [extra_headers] under any other key, a
    differently cased [authorization] included, is passed on as it is, and
    the dictionary has no other key.  (What [httpx.Client] then does with
    the dictionary, its own default headers and its case-insensitive header
    names, is its own.) *)
Theorem constructor_headers :
  forall (os : OsEnv) (url key : option string) (extra : option (gmap string string))
         (w w' : World) (c : Client.t),
    Client.__init__ os url key extra w = (Ok c, w') ->
    exists k,
      ArynConfig.api_key (ArynConfig.__init__ (ArynConfig._DEFAULT_PATH os) key url) os
        = Ok k /\
      Client.client_headers c !! "Authorization" = Some (Client.Bearer k) /\
      forall name, name <> "Authorization" ->
        Client.client_headers c !! name = Client.Plain <$> (Client.or_empty extra !! name).
Proof.
  intros os url key extra w w' c. rewrite init_run.
  destruct (ArynConfig.api_key _ os) as [k | e]; [| discriminate].
  destruct (ArynConfig.aryn_url _ os) as [base | e]; [| discriminate].
  intros [= <- <-]. exists k. split; [reflexivity |]. cbn [Client.client_headers]. split.
  - apply lookup_union_Some_l. apply lookup_singleton_eq.
  - intros name Hname.
    rewrite lookup_union_r by (apply lookup_singleton_ne; congruence).
    apply lookup_fmap.
Qed.

(** The dictionary at work: a caller's own [Authorization] is replaced, a
    lower-case [authorization] and another header stay beside the bearer. *)
Lemma constructor_headers_witness :
  exists c,
    fst (Client.__init__ Samples.env_only Client.DEFAULT_URL None
           (Some {[ "Authorization" := "Basic abc"; "authorization" := "Basic xyz";
                    "X-Trace" := "1" ]}) Samples.w0) = Ok c /\
    Client.client_headers c !! "Authorization" = Some (Client.Bearer (YStr "env-key")) /\
    Client.client_headers c !! "authorization" = Some (Client.Plain "Basic xyz") /\
    Client.client_headers c !! "X-Trace" = Some (Client.Plain "1").
Proof.
  destruct (Client.__init__ Samples.env_only Client.DEFAULT_URL None
              (Some {[ "Authorization" := "Basic abc"; "authorization" := "Basic xyz";
                       "X-Trace" := "1" ]}) Samples.w0)
    as [[c | e] w'] eqn:Hrun; [| vm_compute in Hrun; discriminate Hrun].
  destruct (constructor_headers _ _ _ _ _ _ _ Hrun) as (k & Hk & Hauth & Hrest).
  exists c. split; [reflexivity |].
  assert (Hkey : k = YStr "env-key").
  { vm_compute in Hk. injection Hk as <-. reflexivity. }
  split; [rewrite Hauth, Hkey; reflexivity |].
  split.
  - rewrite (Hrest "authorization") by discriminate. vm_compute. reflexivity.
  - rewrite (Hrest "X-Trace") by discriminate. vm_compute. reflexivity.
Defined.

(** A URL given to the constructor always wins.  With [aryn_url] other than
    [None] (the default included), the base URL of the client is that
    parameter: [ARYN_API_URL] and the configuration file are not consulted
    for it, and the constructor succeeds exactly when the key resolves. *)
Theorem constructor_url_parameter :
  forall (os : OsEnv) (u : string) (key : option string)
         (extra : option (gmap string string)) (w : World),
    (forall k,
       ArynConfig.api_key (ArynConfig.__init__ (ArynConfig._DEFAULT_PATH os) key (Some u)) os
         = Ok k ->
       exists c,
         Client.__init__ os (Some u) key extra w = (Ok c, w) /\
         Client.client_base_url c = YStr u /\ Client.aryn_url c = Some u) /\
    (forall c w',
       Client.__init__ os (Some u) key extra w = (Ok c, w') ->
       Client.client_base_url c = YStr u /\
       exists k,
         ArynConfig.api_key (ArynConfig.__init__ (ArynConfig._DEFAULT_PATH os) key (Some u)) os
           = Ok k).
Proof.
  intros os u key extra w. rewrite init_run. split.
  - intros k ->. cbn. eexists. split; [reflexivity |]. split; reflexivity.
  - intros c w'. destruct (ArynConfig.api_key _ os) as [k | e]; [| discriminate].
    cbn. intros [= <- <-]. split; [reflexivity | eauto].
Qed.

(** The URL parameter at work against an environment that sets
    [ARYN_API_URL]. *)
Lemma constructor_url_parameter_witness :
  exists c,
    Client.__init__ Samples.env_only (Some "https://api.aryn.ai") None None Samples.w0
      = (Ok c, Samples.w0) /\
    Client.client_base_url c = YStr "https://api.aryn.ai".
Proof.
  destruct (constructor_url_parameter Samples.env_only "https://api.aryn.ai" None None
              Samples.w0) as (H & _).
  destruct (H (YStr "env-key") eq_refl) as (c & Hrun & Hbase & _).
  exists c. split; assumption.
Defined.

(** * Further properties of the request core *)

Section SingleRequest.

Context (server : Server).
Context (json_loads : list byte -> option json).

Lemma raw_then_single {A} req (k : httpx.Response -> M A) :
  quiet k ->
  sends_once (res <- Client._make_raw_request server req ;; k res) req /\
  passes_transport_failure server (res <- Client._make_raw_request server req ;; k res) req.
Proof.
  intros Hk. split.
  - intros w. apply sent_raw_then. exact Hk.
  - intros w e Hs. unfold bind.
    rewrite (raw_request_transport_error server req w e Hs). reflexivity.
Qed.

Lemma raw_single req :
  sends_once (Client._make_raw_request server req) req /\
  passes_transport_failure server (Client._make_raw_request server req) req.
Proof.
  split.
  - intros w. apply raw_request_sent.
  - intros w e Hs. apply raw_request_transport_error. exact Hs.
Qed.

Lemma make_request_single {R} req (rt : gmap string json -> outcome R) :
  sends_once (Client._make_request server json_loads req rt) req /\
  passes_transport_failure server (Client._make_request server json_loads req rt) req.
Proof.
  unfold Client._make_request. apply raw_then_single.
  intros res w. unfold bind, lift.
  destruct (body <~ Client.res_json json_loads res ;; kwargs <~ py_kwargs body ;; rt kwargs);
    reflexivity.
Qed.

Lemma make_paginated_request_single {R} req (rt : gmap string json -> outcome R) lk args kw :
  sends_once (Client._make_paginated_request server req rt lk args kw) req /\
  passes_transport_failure server
    (Client._make_paginated_request server req rt lk args kw) req.
Proof.
  unfold Client._make_paginated_request. apply raw_then_single.
  intros res w. reflexivity.
Qed.

Lemma poll_single task :
  sends_once (Client.get_async_result server json_loads task) (Client.result_request task) /\
  passes_transport_failure server (Client.get_async_result server json_loads task)
    (Client.result_request task).
Proof.
  unfold Client.get_async_result, Client._get_async_result_internal.
  apply raw_then_single. apply quiet_poll_classification.
Qed.

Lemma cancel_single task :
  sends_once (Client.cancel_async_task server task) (Client.cancel_request task) /\
  passes_transport_failure server (Client.cancel_async_task server task)
    (Client.cancel_request task).
Proof.
  unfold Client.cancel_async_task. apply raw_then_single. intros res w. reflexivity.
Qed.

Lemma get_doc_binary_single os_open iter_bytes docset_id doc_id file extra disk :
  sends_once
    (Client.get_doc_binary server os_open iter_bytes docset_id doc_id file extra disk)
    (httpx.build_request "GET"
       ("/v1/storage/docsets/" ++ docset_id ++ "/docs/" ++ doc_id ++ "/binary") None extra) /\
  passes_transport_failure server
    (Client.get_doc_binary server os_open iter_bytes docset_id doc_id file extra disk)
    (httpx.build_request "GET"
       ("/v1/storage/docsets/" ++ docset_id ++ "/docs/" ++ doc_id ++ "/binary") None extra).
Proof.
  unfold Client.get_doc_binary. apply raw_then_single.
  intros res w. unfold bind, lift.
  destruct file as [path | fd]; [destruct (Client.open_wb os_open path disk) |]; reflexivity.
Qed.

End SingleRequest.

(** No operation retries or sends a second request: each of the operations
    below sends exactly one request, the one shown, whether the answer is a
    success, an API error, a body that does not decode, or a failure of the
    transport. *)
Theorem one_request_per_operation :
  forall (server : Server) (json_loads : list byte -> option json)
         (D M' : Type) (DocSetMetadata : gmap string json -> outcome D)
         (DocumentMetadata : gmap string json -> outcome M'),
    (forall R req (rt : gmap string json -> outcome R),
       sends_once (Client._make_request server json_loads req rt) req) /\
    (forall name_eq page_size page_token extra,
       sends_once (Client.list_docsets server DocSetMetadata name_eq page_size page_token extra)
         (httpx.build_request "GET" "/v1/storage/docsets"
            (Client.or_None
               (Client.set_if "page_token" httpx.PStr page_token
                  (Client.set_if "page_size" httpx.PInt page_size
                     (Client.set_if "name_eq" httpx.PStr name_eq ∅))))
            extra)) /\
    (forall docset_id page_size page_token extra,
       sends_once (Client.list_docs server DocumentMetadata docset_id page_size page_token extra)
         (httpx.build_request "GET" ("/v1/storage/docsets/" ++ docset_id ++ "/docs")
            (Client.or_None
               (Client.set_if "page_token" httpx.PStr page_token
                  (Client.set_if "page_size" httpx.PInt page_size ∅)))
            extra)) /\
    (forall R (rt : gmap string json -> outcome R),
       sends_once (Client.list_async_tasks server json_loads rt)
         (httpx.build_request "GET" "/v1/async/list" None None)) /\
    (forall task,
       sends_once (Client.cancel_async_task server task) (Client.cancel_request task)) /\
    (forall task,
       sends_once (Client.get_async_result server json_loads task)
         (Client.result_request task)) /\
    (forall docset_id extra,
       sends_once (Client.clone_docset server json_loads DocSetMetadata docset_id extra)
         (httpx.build_request "POST" ("/v1/storage/docsets/" ++ docset_id ++ "/clone")
            None extra)) /\
    (forall docset_id extra,
       sends_once (Client.get_docset server json_loads DocSetMetadata docset_id extra)
         (httpx.build_request "GET" ("/v1/storage/docsets/" ++ docset_id) None extra)) /\
    (forall docset_id readonly extra,
       sends_once
         (Client.set_readonly_docset server json_loads DocSetMetadata docset_id readonly extra)
         (httpx.build_request "POST"
            ("/v1/storage/docsets/" ++ docset_id ++ "/readonly/" ++ Client.int_str readonly)
            None extra)) /\
    (forall docset_id extra,
       sends_once (Client.delete_docset server json_loads DocSetMetadata docset_id extra)
         (httpx.build_request "DELETE" ("/v1/storage/docsets/" ++ docset_id) None extra)) /\
    (forall docset_id doc_id extra,
       sends_once (Client.delete_doc server json_loads DocumentMetadata docset_id doc_id extra)
         (httpx.build_request "DELETE"
            ("/v1/storage/docsets/" ++ docset_id ++ "/docs/" ++ doc_id) None extra)) /\
    (forall os_open iter_bytes docset_id doc_id file extra disk,
       sends_once
         (Client.get_doc_binary server os_open iter_bytes docset_id doc_id file extra disk)
         (httpx.build_request "GET"
            ("/v1/storage/docsets/" ++ docset_id ++ "/docs/" ++ doc_id ++ "/binary")
            None extra)).
Proof.
  intros server json_loads D M' DocSetMetadata DocumentMetadata.
  repeat match goal with |- _ /\ _ => split end; intros.
  - apply make_request_single.
  - apply (make_paginated_request_single server).
  - apply (make_paginated_request_single server).
  - apply make_request_single.
  - apply cancel_single.
  - apply poll_single.
  - apply make_request_single.
  - apply make_request_single.
  - apply make_request_single.
  - apply make_request_single.
  - apply make_request_single.
  - apply get_doc_binary_single.
Qed.

(** A failure of the transport is not caught anywhere: when sending the
    request of an operation fails, the operation raises that failure as it
    is, after that one attempt. *)
Theorem transport_failure_propagates :
  forall (server : Server) (json_loads : list byte -> option json)
         (D M' : Type) (DocSetMetadata : gmap string json -> outcome D)
         (DocumentMetadata : gmap string json -> outcome M'),
    (forall req, passes_transport_failure server (Client._make_raw_request server req) req) /\
    (forall R req (rt : gmap string json -> outcome R),
       passes_transport_failure server (Client._make_request server json_loads req rt) req) /\
    (forall name_eq page_size page_token extra,
       passes_transport_failure server
         (Client.list_docsets server DocSetMetadata name_eq page_size page_token extra)
         (httpx.build_request "GET" "/v1/storage/docsets"
            (Client.or_None
               (Client.set_if "page_token" httpx.PStr page_token
                  (Client.set_if "page_size" httpx.PInt page_size
                     (Client.set_if "name_eq" httpx.PStr name_eq ∅))))
            extra)) /\
    (forall docset_id page_size page_token extra,
       passes_transport_failure server
         (Client.list_docs server DocumentMetadata docset_id page_size page_token extra)
         (httpx.build_request "GET" ("/v1/storage/docsets/" ++ docset_id ++ "/docs")
            (Client.or_None
               (Client.set_if "page_token" httpx.PStr page_token
                  (Client.set_if "page_size" httpx.PInt page_size ∅)))
            extra)) /\
    (forall task,
       passes_transport_failure server (Client.cancel_async_task server task)
         (Client.cancel_request task)) /\
    (forall task,
       passes_transport_failure server (Client.get_async_result server json_loads task)
         (Client.result_request task)) /\
    (forall docset_id extra,
       passes_transport_failure server
         (Client.delete_docset server json_loads DocSetMetadata docset_id extra)
         (httpx.build_request "DELETE" ("/v1/storage/docsets/" ++ docset_id) None extra)) /\
    (forall os_open iter_bytes docset_id doc_id file extra disk,
       passes_transport_failure server
         (Client.get_doc_binary server os_open iter_bytes docset_id doc_id file extra disk)
         (httpx.build_request "GET"
            ("/v1/storage/docsets/" ++ docset_id ++ "/docs/" ++ doc_id ++ "/binary")
            None extra)).
Proof.
  intros server json_loads D M' DocSetMetadata DocumentMetadata.
  repeat match goal with |- _ /\ _ => split end; intros.
  - apply raw_single.
  - apply make_request_single.
  - apply (make_paginated_request_single server).
  - apply (make_paginated_request_single server).
  - apply cancel_single.
  - apply poll_single.
  - apply make_request_single.
  - apply get_doc_binary_single.
Qed.

(** A refused connection at work: the poll and a download raise it and
    have sent one request each. *)
Lemma transport_failure_propagates_witness :
  Client.get_async_result Samples.unreachable Samples.decode (BareId "T1") Samples.w0
    = (Raise (TransportError "connection refused"),
       after Samples.w0 (Client.result_request (BareId "T1"))) /\
  fst (Client.get_doc_binary Samples.unreachable Samples.can_open Samples.chunks
         "d" "x" (Client.FilePath "out.bin") None Samples.disk0 Samples.w0)
    = Raise (TransportError "connection refused").
Proof.
  destruct (transport_failure_propagates Samples.unreachable Samples.decode
              string string Samples.item Samples.item)
    as (_ & _ & _ & _ & _ & Hpoll & _ & Hbin).
  split.
  - apply Hpoll. reflexivity.
  - rewrite (Hbin Samples.can_open Samples.chunks "d" "x" (Client.FilePath "out.bin") None
               Samples.disk0 Samples.w0 (TransportError "connection refused") eq_refl).
    reflexivity.
Defined.

(** * Further properties of the poll *)

(** The poll reports through [logging.error] exactly the answers that the
    classifier lets through and that are neither 200 nor 202: one record with
    the status and the task.  Every other poll, whatever its outcome, logs
    nothing. *)
Theorem poll_logs_unexpected_status :
  forall (server : Server) (json_loads : list byte -> option json)
         (task : TaskArg) (w : World),
    (forall res,
       server (sent w) (Client.result_request task) = Ok res ->
       (httpx.status_code res < 300)%Z ->
       (httpx.status_code res <> 200)%Z -> (httpx.status_code res <> 202)%Z ->
       logged (snd (Client.get_async_result server json_loads task w))
         = (logged w ++ [UnexpectedStatus (httpx.status_code res) task])%list) /\
    (forall res,
       server (sent w) (Client.result_request task) = Ok res ->
       (httpx.status_code res >= 300 \/ httpx.status_code res = 200
        \/ httpx.status_code res = 202)%Z ->
       logged (snd (Client.get_async_result server json_loads task w)) = logged w) /\
    (forall e,
       server (sent w) (Client.result_request task) = Raise e ->
       logged (snd (Client.get_async_result server json_loads task w)) = logged w).
Proof.
  intros server json_loads task w. repeat split.
  - intros res Hs Hlt H200 H202.
    rewrite (poll_passed server json_loads task w res Hs Hlt).
    apply Z.eqb_neq in H200. apply Z.eqb_neq in H202. rewrite H200, H202. reflexivity.
  - intros res Hs Hcase.
    destruct (Z_lt_ge_dec (httpx.status_code res) 300) as [Hlt | Hge].
    + rewrite (poll_passed server json_loads task w res Hs Hlt).
      destruct (Z.eqb_spec (httpx.status_code res) 200) as [H200 | H200].
      * destruct (httpx.Headers_get _ _) as [ct |]; [| reflexivity].
        destruct (String.eqb _ _); [| reflexivity].
        destruct (json_loads _); reflexivity.
      * destruct (Z.eqb_spec (httpx.status_code res) 202) as [H202 | H202];
          [reflexivity | lia].
    + rewrite (poll_api_error server json_loads task w res Hs Hge). reflexivity.
  - intros e Hs.
    destruct (poll_single server json_loads task) as (_ & Hfail).
    rewrite (Hfail w e Hs). reflexivity.
Qed.

(** The log at work: a 204 is recorded, a 202 and a 404 are not. *)
Lemma poll_logs_unexpected_status_witness :
  logged (snd (Client.get_async_result (Samples.always Samples.no_content) Samples.decode
                 (BareId "T1") Samples.w0)) = [UnexpectedStatus 204 (BareId "T1")] /\
  logged (snd (Client.get_async_result (Samples.always Samples.pending) Samples.decode
                 (BareId "T1") Samples.w0)) = [] /\
  logged (snd (Client.get_async_result (Samples.always Samples.not_found) Samples.decode
                 (BareId "T1") Samples.w0)) = [].
Proof.
  destruct (poll_logs_unexpected_status (Samples.always Samples.no_content) Samples.decode
              (BareId "T1") Samples.w0) as (H1 & _).
  destruct (poll_logs_unexpected_status (Samples.always Samples.pending) Samples.decode
              (BareId "T1") Samples.w0) as (_ & H2 & _).
  destruct (poll_logs_unexpected_status (Samples.always Samples.not_found) Samples.decode
              (BareId "T1") Samples.w0) as (_ & H3 & _).
  split.
  { rewrite (H1 Samples.no_content eq_refl); [reflexivity | cbn; lia | discriminate ..]. }
  split.
  { rewrite (H2 Samples.pending eq_refl); [reflexivity | right; right; reflexivity]. }
  rewrite (H3 Samples.not_found eq_refl); [reflexivity | left; cbn; lia].
Defined.

(** A 200 that announces JSON and whose body does not decode raises the
    decoding error: the poll does not fall back to the raw bytes and does
    not report the task as pending. *)
Theorem poll_undecodable_json :
  forall (server : Server) (json_loads : list byte -> option json)
         (task : TaskArg) (w : World) (res : httpx.Response),
    server (sent w) (Client.result_request task) = Ok res ->
    (httpx.status_code res = 200)%Z ->
    json_content_type res ->
    json_loads (httpx.content res) = None ->
    Client.get_async_result server json_loads task w
      = (Raise JSONDecodeError, after w (Client.result_request task)).
Proof.
  intros server json_loads task w res Hs H200 (ct & Hct & Hj) Hd.
  rewrite (poll_passed server json_loads task w res Hs) by lia.
  rewrite H200, Hct, Hj, Hd. reflexivity.
Qed.

(** An HTML body under a JSON content type at work. *)
Lemma poll_undecodable_json_witness :
  fst (Client.get_async_result (Samples.always Samples.garbled) Samples.decode
         (Handle Samples.task) Samples.w0) = Raise JSONDecodeError.
Proof.
  rewrite (poll_undecodable_json (Samples.always Samples.garbled) Samples.decode
             (Handle Samples.task) Samples.w0 Samples.garbled eq_refl eq_refl).
  - reflexivity.
  - exists "Application/JSON". split; reflexivity.
  - reflexivity.
Defined.

(** The identifier and the filters are all that the poll and cancel take
    from their argument.  Two arguments with the same identifier and filters
    (a bare identifier and a handle without filters, say) get the same
    requests sent and the same outcome; cancel does not tell them apart at
    all, and the poll only in the text of its log record. *)
Theorem addressing_determines_requests :
  forall (server : Server) (json_loads : list byte -> option json)
         (task1 task2 : TaskArg) (w : World),
    Client._get_task_and_filters task1 = Client._get_task_and_filters task2 ->
    Client.cancel_async_task server task1 w = Client.cancel_async_task server task2 w /\
    fst (Client.get_async_result server json_loads task1 w)
      = fst (Client.get_async_result server json_loads task2 w) /\
    sent (snd (Client.get_async_result server json_loads task1 w))
      = sent (snd (Client.get_async_result server json_loads task2 w)).
Proof.
  intros server json_loads task1 task2 w Ha.
  assert (Hc : Client.cancel_request task1 = Client.cancel_request task2).
  { unfold Client.cancel_request. rewrite Ha. reflexivity. }
  assert (Hr : Client.result_request task1 = Client.result_request task2).
  { unfold Client.result_request. rewrite Ha. reflexivity. }
  split; [unfold Client.cancel_async_task; rewrite Hc; reflexivity |].
  destruct (poll_single server json_loads task1) as (Hsent1 & Hfail1).
  destruct (poll_single server json_loads task2) as (Hsent2 & Hfail2).
  split; [| rewrite Hsent1, Hsent2, Hr; reflexivity].
  destruct (server (sent w) (Client.result_request task1)) as [res | e] eqn:Hs.
  - assert (Hs2 := Hs). rewrite Hr in Hs2.
    destruct (Z_lt_ge_dec (httpx.status_code res) 300) as [Hlt | Hge].
    + rewrite (poll_passed server json_loads task1 w res Hs Hlt),
        (poll_passed server json_loads task2 w res Hs2 Hlt), Hr.
      destruct (httpx.status_code res =? 200)%Z.
      * destruct (httpx.Headers_get _ _) as [ct |]; [| reflexivity].
        destruct (String.eqb _ _); [| reflexivity].
        destruct (json_loads _); reflexivity.
      * destruct (httpx.status_code res =? 202)%Z; reflexivity.
    + rewrite (poll_api_error server json_loads task1 w res Hs Hge),
        (poll_api_error server json_loads task2 w res Hs2 Hge). reflexivity.
  - assert (Hs2 := Hs). rewrite Hr in Hs2.
    rewrite (Hfail1 w e Hs), (Hfail2 w e Hs2). reflexivity.
Qed.

(** A bare identifier and a handle without filters at work. *)
Lemma addressing_determines_requests_witness :
  Client.cancel_async_task (Samples.always Samples.pending) (BareId "T1") Samples.w0
    = Client.cancel_async_task (Samples.always Samples.pending)
        (Handle Samples.unfiltered) Samples.w0 /\
  fst (Client.get_async_result (Samples.always Samples.ready) Samples.decode
         (BareId "T1") Samples.w0)
    = fst (Client.get_async_result (Samples.always Samples.ready) Samples.decode
             (Handle Samples.unfiltered) Samples.w0).
Proof.
  destruct (addressing_determines_requests (Samples.always Samples.pending) Samples.decode
              (BareId "T1") (Handle Samples.unfiltered) Samples.w0 eq_refl) as (H1 & _).
  destruct (addressing_determines_requests (Samples.always Samples.ready) Samples.decode
              (BareId "T1") (Handle Samples.unfiltered) Samples.w0 eq_refl) as (_ & H2 & _).
  split; assumption.
Defined.

(** * Further properties of the list operations *)

Lemma make_paginated_request_returned {R} (server : Server) req
    (rt : gmap string json -> outcome R) lk args kw w p w' :
  Client._make_paginated_request server req rt lk args kw w = (Ok p, w') ->
  w' = after w req /\
  exists res,
    server (sent w) req = Ok res /\ (httpx.status_code res < 300)%Z /\
    p = mkPaginatedResponse res rt lk args kw.
Proof.
  unfold Client._make_paginated_request, bind.
  destruct (server (sent w) req) as [res | e] eqn:Hs.
  - destruct (Z_lt_ge_dec (httpx.status_code res) 300) as [Hlt | Hge].
    + rewrite (raw_request_ok server req w res Hs Hlt). cbn. intros [= <- <-].
      split; [reflexivity |]. exists res. repeat split; assumption.
    + rewrite (raw_request_api_error server req w res Hs Hge). discriminate.
  - rewrite (raw_request_transport_error server req w e Hs). discriminate.
Qed.

(** The engine that a list operation returns can replay its first request.
    The stored positional and keyword arguments rebuild exactly the request
    that was sent, filters and page size included, the held page is the
    answer to that request, an answer below 300, and the items are looked up
    under [items]. *)
Theorem listing_replays_first_request :
  forall (server : Server) (D M' : Type) (DocSetMetadata : gmap string json -> outcome D)
         (DocumentMetadata : gmap string json -> outcome M'),
    (forall name_eq page_size page_token extra w p w',
       Client.list_docsets server DocSetMetadata name_eq page_size page_token extra w
         = (Ok p, w') ->
       exists req,
         w' = after w req /\
         build_request_star (request_args p) (request_kwargs p) = Ok req /\
         server (sent w) req = Ok (curr_response p) /\
         (httpx.status_code (curr_response p) < 300)%Z /\
         list_key p = "items") /\
    (forall docset_id page_size page_token extra w p w',
       Client.list_docs server DocumentMetadata docset_id page_size page_token extra w
         = (Ok p, w') ->
       exists req,
         w' = after w req /\
         build_request_star (request_args p) (request_kwargs p) = Ok req /\
         server (sent w) req = Ok (curr_response p) /\
         (httpx.status_code (curr_response p) < 300)%Z /\
         list_key p = "items").
Proof.
  intros server D M' DocSetMetadata DocumentMetadata. split.
  - intros name_eq page_size page_token extra w p w' Hrun.
    apply (make_paginated_request_returned server) in Hrun.
    destruct Hrun as (-> & res & Hs & Hc & ->).
    eexists. split; [reflexivity |]. cbn. repeat split; assumption.
  - intros docset_id page_size page_token extra w p w' Hrun.
    apply (make_paginated_request_returned server) in Hrun.
    destruct Hrun as (-> & res & Hs & Hc & ->).
    eexists. split; [reflexivity |]. cbn. repeat split; assumption.
Qed.

(** The replay at work on the sample listing. *)
Lemma listing_replays_first_request_witness :
  exists p,
    fst (Client.list_docsets Samples.paged Samples.item (Some "reports") (Some 10%Z) None None
           Samples.w0) = Ok p /\
    build_request_star (request_args p) (request_kwargs p)
      = Ok (httpx.build_request "GET" "/v1/storage/docsets"
              (Some {[ "name_eq" := httpx.PStr "reports"; "page_size" := httpx.PInt 10 ]})
              None).
Proof.
  destruct (Client.list_docsets Samples.paged Samples.item (Some "reports") (Some 10%Z) None
              None Samples.w0) as [[p | e] w'] eqn:Hrun; [| vm_compute in Hrun; discriminate].
  destruct (listing_replays_first_request Samples.paged string string Samples.item Samples.item)
    as (H & _).
  destruct (H _ _ _ _ _ _ _ Hrun) as (req & Hw & Hb & _).
  exists p. split; [reflexivity |].
  rewrite Hb. f_equal.
  assert (Hsent : sent w' = [req]) by (rewrite Hw; reflexivity).
  assert (Hsent' : sent w' = [httpx.build_request "GET" "/v1/storage/docsets"
              (Some {[ "name_eq" := httpx.PStr "reports"; "page_size" := httpx.PInt 10 ]})
              None]).
  { change w' with (snd (Ok p, w')). rewrite <- Hrun. vm_compute. reflexivity. }
  rewrite Hsent in Hsent'. injection Hsent' as ->. reflexivity.
Defined.

(** Only the arguments that are given reach the query of [list_docsets].
    The request is a GET on the docsets path with the caller's headers; its
    [params] are [None], not an empty dictionary, when no argument is given,
    and otherwise hold [name_eq], [page_size] and [page_token] for exactly
    the arguments that are not [None]. *)
Theorem list_docsets_params :
  forall (server : Server) (D : Type) (DocSetMetadata : gmap string json -> outcome D)
         name_eq page_size page_token extra (w : World),
    exists req,
      sent (snd (Client.list_docsets server DocSetMetadata name_eq page_size page_token extra w))
        = sent (after w req) /\
      httpx.method req = "GET" /\
      httpx.url req = "/v1/storage/docsets" /\
      httpx.headers req = extra /\
      (httpx.params req = None <->
         name_eq = None /\ page_size = None /\ page_token = None) /\
      (forall params, httpx.params req = Some params ->
         params !! "name_eq" = httpx.PStr <$> name_eq /\
         params !! "page_size" = httpx.PInt <$> page_size /\
         params !! "page_token" = httpx.PStr <$> page_token /\
         forall key, is_Some (params !! key) ->
           key = "name_eq" \/ key = "page_size" \/ key = "page_token").
Proof.
  intros server D DocSetMetadata name_eq page_size page_token extra w.
  eexists. split.
  { apply (make_paginated_request_single server). }
  cbn [httpx.method httpx.url httpx.headers httpx.params].
  split; [reflexivity |]. split; [reflexivity |]. split; [reflexivity |].
  unfold Client.or_None, Client.set_if. split.
  - destruct name_eq, page_size, page_token; cbn; case_decide as He;
      try (exfalso;
           first [exact (insert_non_empty _ _ _ He) | apply He; reflexivity]; fail);
      (split;
       [intros H; first [discriminate H | repeat split; reflexivity]
       | intros (H1 & H2 & H3);
         first [discriminate H1 | discriminate H2 | discriminate H3 | reflexivity]]).
  - intros params.
    destruct name_eq, page_size, page_token; case_decide as He; intros [= <-];
      (split; [| split; [| split]]);
      try (cbn; repeat (rewrite lookup_insert_ne by discriminate);
           first [apply lookup_insert_eq | apply lookup_empty]);
      intros key [x Hx];
      repeat (apply lookup_insert_Some in Hx; destruct Hx as [[<- _] | [_ Hx]]; [tauto |]);
      rewrite lookup_empty in Hx; discriminate Hx.
Qed.

(** The query at work: a name filter and a page size. *)
Lemma list_docsets_params_witness :
  exists req params,
    sent (snd (Client.list_docsets Samples.paged Samples.item (Some "reports") (Some 10%Z)
                 None None Samples.w0)) = [req] /\
    httpx.params req = Some params /\
    params !! "name_eq" = Some (httpx.PStr "reports") /\
    params !! "page_token" = None.
Proof.
  destruct (list_docsets_params Samples.paged string Samples.item (Some "reports")
              (Some 10%Z) None None Samples.w0) as (req & Hsent & _ & _ & _ & Hnone & Hsome).
  destruct (httpx.params req) as [params |] eqn:Hp.
  - destruct (Hsome params eq_refl) as (H1 & _ & H3 & _).
    exists req, params. repeat split; assumption.
  - destruct Hnone as (Hnone & _). destruct (Hnone eq_refl) as (Hn & _). discriminate Hn.
Defined.

(** * Further properties of the docset and document operations *)

(** Identifiers go into the path as they are, with no escaping.  So an
    identifier that contains a slash addresses something else: deleting a
    docset whose identifier is [X/docs/Y] sends the very request that deletes
    document [Y] of docset [X], and getting a docset whose identifier is
    [X/docs] sends the first request of listing the documents of [X]. *)
Theorem identifiers_are_not_escaped :
  forall (server : Server) (json_loads : list byte -> option json)
         (D M' : Type) (DocSetMetadata : gmap string json -> outcome D)
         (DocumentMetadata : gmap string json -> outcome M')
         (X Y : string) (extra : option (gmap string string)) (w : World),
    sent (snd (Client.delete_docset server json_loads DocSetMetadata
                 (X ++ "/docs/" ++ Y) extra w))
      = sent (snd (Client.delete_doc server json_loads DocumentMetadata X Y extra w)) /\
    sent (snd (Client.get_docset server json_loads DocSetMetadata (X ++ "/docs") extra w))
      = sent (snd (Client.list_docs server DocumentMetadata X None None extra w)).
Proof.
  intros server json_loads D M' DocSetMetadata DocumentMetadata X Y extra w.
  unfold Client.delete_docset, Client.delete_doc, Client.get_docset.
  split.
  - destruct (make_request_single server json_loads
                (httpx.build_request "DELETE" ("/v1/storage/docsets/" ++ X ++ "/docs/" ++ Y)
                   None extra) DocSetMetadata) as (Hdocset & _).
    destruct (make_request_single server json_loads
                (httpx.build_request "DELETE" ("/v1/storage/docsets/" ++ X ++ "/docs/" ++ Y)
                   None extra) DocumentMetadata) as (Hdoc & _).
    rewrite (Hdocset w), (Hdoc w). reflexivity.
  - destruct (make_request_single server json_loads
                (httpx.build_request "GET" ("/v1/storage/docsets/" ++ X ++ "/docs")
                   None extra) DocSetMetadata) as (Hget & _).
    destruct (make_paginated_request_single server
                (httpx.build_request "GET" ("/v1/storage/docsets/" ++ X ++ "/docs")
                   None extra) DocumentMetadata "items"
                ["GET"; "/v1/storage/docsets/" ++ X ++ "/docs"]
                {| kw_params := None; kw_headers := extra |}) as (Hlist & _).
    rewrite (Hget w). rewrite <- (Hlist w). reflexivity.
Qed.

Section DownloadFacts.

Import Client.

Lemma fold_write_path chunks :
  forall disk path old,
    disk_paths disk !! path = Some old ->
    disk_paths (fold_left (write (FilePath path)) chunks disk) !! path
      = Some (old ++ concat chunks)%list /\
    (forall other, other <> path ->
       disk_paths (fold_left (write (FilePath path)) chunks disk) !! other
         = disk_paths disk !! other) /\
    disk_objects (fold_left (write (FilePath path)) chunks disk) = disk_objects disk.
Proof.
  induction chunks as [| data rest IH]; intros disk path old Hold.
  - cbn. rewrite app_nil_r. repeat split; try assumption; reflexivity.
  - cbn [fold_left concat].
    destruct (IH (write (FilePath path) disk data) path (old ++ data)%list)
      as (Hpath & Hother & Hobj).
    { cbn. rewrite Hold. cbn. apply lookup_insert_eq. }
    split; [rewrite Hpath, <- app_assoc; reflexivity |]. split.
    + intros other Hne. rewrite (Hother other Hne). cbn.
      apply lookup_insert_ne. congruence.
    + rewrite Hobj. reflexivity.
Qed.

Lemma fold_write_object chunks :
  forall disk fd,
    default [] (disk_objects (fold_left (write (FileObject fd)) chunks disk) !! fd)
      = (default [] (disk_objects disk !! fd) ++ concat chunks)%list /\
    (forall other, other <> fd ->
       disk_objects (fold_left (write (FileObject fd)) chunks disk) !! other
         = disk_objects disk !! other) /\
    disk_paths (fold_left (write (FileObject fd)) chunks disk) = disk_paths disk.
Proof.
  induction chunks as [| data rest IH]; intros disk fd.
  - cbn. rewrite app_nil_r. repeat split; reflexivity.
  - cbn [fold_left concat].
    destruct (IH (write (FileObject fd) disk data) fd) as (Hfd & Hother & Hpaths).
    split.
    + rewrite Hfd. cbn. rewrite lookup_insert_eq. cbn. rewrite <- app_assoc. reflexivity.
    + split.
      * intros other Hne. rewrite (Hother other Hne). cbn.
        apply lookup_insert_ne. congruence.
      * rewrite Hpaths. reflexivity.
Qed.

End DownloadFacts.

(** What a download leaves behind.  On an answer below 300, a path target
    ends up holding exactly the chunks of the body in order, whatever it
    held before, and a file object gets the chunks appended to what was
    written to it before; nothing else on the disk changes.  When the path
    cannot be opened the error of [open] is raised, after the request was
    sent.  On an API error the error is raised before anything is opened. *)
Theorem get_doc_binary_writes :
  forall (server : Server) (os_open : string -> outcome unit)
         (iter_bytes : httpx.Response -> list (list byte))
         (docset_id doc_id : string) (extra : option (gmap string string))
         (disk : Client.Disk) (w : World) (res : httpx.Response),
    server (sent w)
      (httpx.build_request "GET"
         ("/v1/storage/docsets/" ++ docset_id ++ "/docs/" ++ doc_id ++ "/binary") None extra)
      = Ok res ->
    (forall path,
       (httpx.status_code res < 300)%Z -> os_open path = Ok tt ->
       exists disk',
         fst (Client.get_doc_binary server os_open iter_bytes docset_id doc_id
                (Client.FilePath path) extra disk w) = Ok disk' /\
         Client.disk_paths disk' !! path = Some (concat (iter_bytes res)) /\
         (forall other, other <> path ->
            Client.disk_paths disk' !! other = Client.disk_paths disk !! other) /\
         Client.disk_objects disk' = Client.disk_objects disk) /\
    (forall fd,
       (httpx.status_code res < 300)%Z ->
       exists disk',
         fst (Client.get_doc_binary server os_open iter_bytes docset_id doc_id
                (Client.FileObject fd) extra disk w) = Ok disk' /\
         default [] (Client.disk_objects disk' !! fd)
           = (default [] (Client.disk_objects disk !! fd) ++ concat (iter_bytes res))%list /\
         (forall other, other <> fd ->
            Client.disk_objects disk' !! other = Client.disk_objects disk !! other) /\
         Client.disk_paths disk' = Client.disk_paths disk) /\
    (forall path e,
       (httpx.status_code res < 300)%Z -> os_open path = Raise e ->
       fst (Client.get_doc_binary server os_open iter_bytes docset_id doc_id
              (Client.FilePath path) extra disk w) = Raise e) /\
    (forall file,
       (httpx.status_code res >= 300)%Z ->
       fst (Client.get_doc_binary server os_open iter_bytes docset_id doc_id file extra disk w)
         = Raise (ArynSDKException res)).
Proof.
  intros server os_open iter_bytes docset_id doc_id extra disk w res Hs.
  unfold Client.get_doc_binary. repeat split.
  - intros path Hc Hopen. unfold bind at 1.
    rewrite (raw_request_ok server _ w res Hs Hc).
    unfold bind, lift, Client.open_wb, obind. rewrite Hopen. cbn [fst ret].
    eexists. split; [reflexivity |].
    destruct (fold_write_path (iter_bytes res)
                {| Client.disk_paths := <[path := []]> (Client.disk_paths disk);
                   Client.disk_objects := Client.disk_objects disk |} path [])
      as (Hpath & Hother & Hobj).
    { cbn. apply lookup_insert_eq. }
    split; [exact Hpath |]. split; [| exact Hobj].
    intros other Hne. rewrite (Hother other Hne). cbn.
    apply lookup_insert_ne. congruence.
  - intros fd Hc. unfold bind at 1.
    rewrite (raw_request_ok server _ w res Hs Hc).
    unfold bind, lift. cbn [fst ret].
    eexists. split; [reflexivity |].
    apply fold_write_object.
  - intros path e Hc Hopen. unfold bind at 1.
    rewrite (raw_request_ok server _ w res Hs Hc).
    unfold bind, lift, Client.open_wb, obind. rewrite Hopen. reflexivity.
  - intros file Hc. unfold bind at 1.
    rewrite (raw_request_api_error server _ w res Hs Hc). reflexivity.
Qed.

(** A download at work: the body arrives in chunks of two bytes; the old
    content of the path is gone, the file object keeps its head. *)
Lemma get_doc_binary_writes_witness :
  (exists disk',
     fst (Client.get_doc_binary (Samples.always Samples.ready_raw) Samples.can_open
            Samples.chunks "d" "x" (Client.FilePath "out.bin") None Samples.disk0 Samples.w0)
       = Ok disk' /\
     Client.disk_paths disk' !! "out.bin" = Some (Samples.bytes "result")) /\
  (exists disk',
     fst (Client.get_doc_binary (Samples.always Samples.ready_raw) Samples.can_open
            Samples.chunks "d" "x" (Client.FileObject 3) None Samples.disk0 Samples.w0)
       = Ok disk' /\
     default [] (Client.disk_objects disk' !! 3) = Samples.bytes "head:result").
Proof.
  destruct (get_doc_binary_writes (Samples.always Samples.ready_raw) Samples.can_open
              Samples.chunks "d" "x" None Samples.disk0 Samples.w0 Samples.ready_raw eq_refl)
    as (Hpath & Hobj & _).
  split.
  - destruct (Hpath "out.bin") as (disk' & Hrun & Hcontent & _);
      [cbn; lia | reflexivity |].
    exists disk'. split; [exact Hrun |]. rewrite Hcontent. vm_compute. reflexivity.
  - destruct (Hobj 3) as (disk' & Hrun & Hcontent & _); [cbn; lia |].
    exists disk'. split; [exact Hrun |]. rewrite Hcontent. vm_compute. reflexivity.
Defined.
